(** * ontology-ts-sdk: key management, signature schemes and the REST client

    A shallow embedding of
      - [src/crypto/SignatureScheme.ts]  (the scheme registry and its lookups),
      - the [PrivateKey] class           (sign, getPublicKey, encrypt, decrypt),
      - [src/network/rest/restClient.ts] ([concatParams], [sendRawTransaction]),
    followed by the properties the specification states about them.

    Conventions.  A TypeScript [number] that only ever holds an integer code is a
    [Z]; a [string] is a [String.string] read as a sequence of bytes; a [Buffer]
    is a [list Byte.byte]; an optional argument is an [option].  A thrown value
    is a [Thrown]; a method that can throw, or that calls into one of the
    cryptographic libraries, lives in the monad [M], which threads the log of
    library calls made so far and returns either a value or the thrown value. *)

From Stdlib Require Import ZArith NArith List String Ascii Bool Lia.
From Stdlib Require Strings.Byte.
Import ListNotations.

#[local] Open Scope string_scope.

(* ===================================================================== *)
(** ** JavaScript values the classes rely on                              *)
(* ===================================================================== *)

Module Js.

(** The numeric codes of [ERROR_CODE] (src/error) that are thrown as they are. *)
Inductive ERROR_CODE : Type :=
| Decrypto_ERROR.

(** What can be thrown in the modelled code: [new Error(msg)], a bare error
    code, or the [TypeError] the engine raises when a value that is not a
    function is called. *)
Inductive Thrown : Type :=
| Error (message : string)
| Code (code : ERROR_CODE)
| TypeError (message : string).

Inductive Result (A : Type) : Type :=
| Ok (value : A)
| Throw (thrown : Thrown).

Arguments Ok {A} value.
Arguments Throw {A} thrown.

(** [Array.prototype.find]: the first element that satisfies the predicate,
    scanning from index 0, or [undefined]. *)
Definition array_find {A : Type} (p : A -> bool) (values : list A) : option A :=
  List.find p values.

(** Truthiness of a string: every string but the empty one. *)
Definition truthy (s : string) : bool :=
  match s with
  | EmptyString => false
  | String _ _ => true
  end.

(** [s.substr(n)]. *)
Fixpoint substr_from (n : nat) (s : string) : string :=
  match n, s with
  | O, _ => s
  | S _, EmptyString => EmptyString
  | S m, String _ rest => substr_from m rest
  end.

End Js.

Import Js.

(** The error kinds of the specification, as the values the code throws. *)
Definition SchemeNotFoundError : Thrown := Error "Enum value not found".
Definition SchemeMismatchError : Thrown := Error "Signature schema does not match key type.".
Definition UnsupportedAlgorithmError : Thrown := Error "Unsupported signature schema.".
Definition UnsupportedSchemeError : Thrown := Error "Unsupported signature schema.".
Definition DecryptionError : Thrown := Code Decrypto_ERROR.

(* ===================================================================== *)
(** ** src/crypto/SignatureScheme.ts                                      *)
(* ===================================================================== *)

Module SignatureScheme.

(** An instance of the class.  [oid] is the identity of the object: the
    constructor pushes every instance it builds onto [values], so the index at
    which an instance sits in [values] identifies it, and [===] on two
    instances compares that index. *)
Record t : Type := mk {
  oid : nat;
  label : string;
  hex : Z;
  labelJWS : string
}.

(** [a === b] on two instances. *)
Definition same (a b : t) : bool := Nat.eqb (oid a) (oid b).

(** The constructor, as a transition of the static array [values]:
    it fills the three fields and runs [SignatureScheme.values.push(this)]. *)
Definition new (label : string) (hex : Z) (labelJWS : string)
    (values : list t) : t * list t :=
  let this := mk (List.length values) label hex labelJWS in
  (this, (values ++ [this])%list).

(** The static fields, in the order their initialisers run. *)
Record Statics : Type := mkStatics {
  s_ECDSAwithSHA224 : t;
  s_ECDSAwithSHA256 : t;
  s_ECDSAwithSHA384 : t;
  s_ECDSAwithSHA512 : t;
  s_ECDSAwithSHA3_224 : t;
  s_ECDSAwithSHA3_256 : t;
  s_ECDSAwithSHA3_384 : t;
  s_ECDSAwithSHA3_512 : t;
  s_ECDSAwithRIPEMD160 : t;
  s_SM2withSM3 : t;
  s_EDDSAwithSHA512 : t
}.

(** Class initialisation: [values = []], then the eleven [new] expressions. *)
Definition class_init : Statics * list t :=
  let values := [] in
  let '(a0, values) := new "ECDSAwithSHA224" 0%Z "ES224" values in
  let '(a1, values) := new "ECDSAwithSHA256" 1%Z "ES256" values in
  let '(a2, values) := new "ECDSAwithSHA384" 2%Z "ES384" values in
  let '(a3, values) := new "ECDSAwithSHA512" 3%Z "ES512" values in
  let '(a4, values) := new "ECDSAwithSHA3-224" 4%Z "ES3-224" values in
  let '(a5, values) := new "ECDSAwithSHA3-256" 5%Z "ES3-256" values in
  let '(a6, values) := new "ECDSAwithSHA3-384" 6%Z "ES3-384" values in
  let '(a7, values) := new "ECDSAwithSHA3-512" 7%Z "ES3-512" values in
  let '(a8, values) := new "ECDSAwithRIPEMD160" 8%Z "ER160" values in
  let '(a9, values) := new "SM2withSM3" 9%Z "SM" values in
  let '(a10, values) := new "EDDSAwithSHA512" 10%Z "EDS512" values in
  (mkStatics a0 a1 a2 a3 a4 a5 a6 a7 a8 a9 a10, values).

Definition ECDSAwithSHA224 : t := s_ECDSAwithSHA224 (fst class_init).
Definition ECDSAwithSHA256 : t := s_ECDSAwithSHA256 (fst class_init).
Definition ECDSAwithSHA384 : t := s_ECDSAwithSHA384 (fst class_init).
Definition ECDSAwithSHA512 : t := s_ECDSAwithSHA512 (fst class_init).
Definition ECDSAwithSHA3_224 : t := s_ECDSAwithSHA3_224 (fst class_init).
Definition ECDSAwithSHA3_256 : t := s_ECDSAwithSHA3_256 (fst class_init).
Definition ECDSAwithSHA3_384 : t := s_ECDSAwithSHA3_384 (fst class_init).
Definition ECDSAwithSHA3_512 : t := s_ECDSAwithSHA3_512 (fst class_init).
Definition ECDSAwithRIPEMD160 : t := s_ECDSAwithRIPEMD160 (fst class_init).
Definition SM2withSM3 : t := s_SM2withSM3 (fst class_init).
Definition EDDSAwithSHA512 : t := s_EDDSAwithSHA512 (fst class_init).

(** [SignatureScheme.values] once the class is loaded. *)
Definition values : list t := snd class_init.

(** The three lookups read the static array; it is an argument here so that
    they can be stated for any content of the registry. *)
Definition fromHex_in (values : list t) (hex' : Z) : Result t :=
  let item := array_find (fun v => Z.eqb (hex v) hex') values in
  match item with
  | None => Throw (Error "Enum value not found")
  | Some item => Ok item
  end.

Definition fromLabel_in (values : list t) (label' : string) : Result t :=
  let item := array_find (fun v => String.eqb (label v) label') values in
  match item with
  | None => Throw (Error "Enum value not found")
  | Some item => Ok item
  end.

Definition fromLabelJWS_in (values : list t) (label' : string) : Result t :=
  let item := array_find (fun v => String.eqb (labelJWS v) label') values in
  match item with
  | None => Throw (Error "Enum value not found")
  | Some item => Ok item
  end.

Definition fromHex : Z -> Result t := fromHex_in values.
Definition fromLabel : string -> Result t := fromLabel_in values.
Definition fromLabelJWS : string -> Result t := fromLabelJWS_in values.

End SignatureScheme.

(* ===================================================================== *)
(** ** Buffers, big numbers and the hex helpers                           *)
(* ===================================================================== *)

Module Buffer.

Definition t : Type := list Byte.byte.

(** The low eight bits of a number, as a byte. *)
Definition byte_of_N (n : N) : Byte.byte := byte_of_ascii (ascii_of_N (N.land n 255)).

(** One lower-case hexadecimal digit. *)
Definition hex_digit (n : N) : ascii :=
  match n with
  | 0 => "0" | 1 => "1" | 2 => "2" | 3 => "3" | 4 => "4" | 5 => "5"
  | 6 => "6" | 7 => "7" | 8 => "8" | 9 => "9" | 10 => "a" | 11 => "b"
  | 12 => "c" | 13 => "d" | 14 => "e" | _ => "f"
  end%N%char.

Definition byte_hex (b : Byte.byte) : string :=
  let n := Byte.to_N b in
  String (hex_digit (N.shiftr n 4)) (String (hex_digit (N.land n 15)) EmptyString).

(** [buf.toString('hex')]: two lower-case digits per byte. *)
Fixpoint toString_hex (buf : t) : string :=
  match buf with
  | [] => EmptyString
  | b :: rest => byte_hex b ++ toString_hex rest
  end.

(** [Buffer.concat(list)]. *)
Definition concat (bufs : list t) : t := List.concat bufs.

(** The number a buffer spells when read big-endian. *)
Definition readBE (buf : t) : N :=
  List.fold_left (fun acc b => (acc * 256 + Byte.to_N b)%N) buf 0%N.

End Buffer.

(** The part of bn.js the signing code uses.  A value returned by a signing
    primitive is a non-negative big number. *)
Module BN.

Definition t : Type := N.

(** [bn.byteLength()]: [ceil(bitLength / 8)], with [bitLength 0 = 0]. *)
Definition byteLength (n : t) : nat := Nat.div (N.to_nat (N.size n) + 7) 8.

(** The [len] low-order bytes of [n], most significant first. *)
Fixpoint be_bytes (len : nat) (n : t) : Buffer.t :=
  match len with
  | O => []
  | S l => Buffer.byte_of_N (N.shiftr n (8 * N.of_nat l)) :: be_bytes l n
  end.

(** [bn.toArrayLike(Buffer, 'be', length)]: the big-endian bytes of the number,
    zero-padded on the left to [length] bytes; the library asserts that the
    number fits. *)
Definition toArrayLike_be (n : t) (length : nat) : Result Buffer.t :=
  let byteLength := byteLength n in
  let reqLength := if Nat.eqb length 0 then Nat.max 1 byteLength else length in
  if negb (Nat.leb byteLength reqLength)
  then Throw (Error "byte array longer than desired length")
  else if negb (Nat.ltb 0 reqLength)
  then Throw (Error "Requested array length <= 0")
  else Ok (be_bytes reqLength n).

End BN.

(** The helpers of [src/utils] that the class uses; the module itself is not
    embedded here. *)
Module Utils.

(** Modelled from the spec: [str2ab] and [ab2hexstring] of [src/utils], which
    the spec describes as the hex encoding of a string: the character codes of
    the string as bytes, and two hex digits per byte. *)
Definition str2ab (str : string) : Buffer.t := list_byte_of_string str.

(** Modelled from the spec: [ab2hexstring] of [src/utils], two lower-case hex
    digits per byte. *)
Definition ab2hexstring (arr : Buffer.t) : string := Buffer.toString_hex arr.

(** Modelled from the spec: [str2hexstr] of [src/utils], the hex encoding of
    the string. *)
Definition str2hexstr (str : string) : string := ab2hexstring (str2ab str).

End Utils.

(* ===================================================================== *)
(** ** Key types, curve parameters, keys and signatures                   *)
(* ===================================================================== *)

Module KeyType.

(** Modelled from the spec: the class [KeyType] of [src/crypto/KeyType.ts], which
    is not embedded here.  The spec lists the three static instances
    ECDSA, EDDSA and SM2; [Other] stands for any instance of the class that is
    none of them (told apart by its object identity), which is what the
    [default] branches of the code handle. *)
Inductive t : Type :=
| ECDSA
| EDDSA
| SM2
| Other (oid : nat).

(** [a === b]. *)
Definition same (a b : t) : bool :=
  match a, b with
  | ECDSA, ECDSA => true
  | EDDSA, EDDSA => true
  | SM2, SM2 => true
  | Other x, Other y => Nat.eqb x y
  | _, _ => false
  end.

End KeyType.

(** Modelled from the spec: [CurveLabel] and [KeyParameters] of
    [src/crypto/Key.ts], a curve identifier paired with the preset name the
    elliptic-curve library knows the curve by. *)
Record CurveLabel : Type := mkCurveLabel {
  curve_label : string;
  preset : string
}.

(** Modelled from the spec: [KeyParameters], the curve a key lives on. *)
Record KeyParameters : Type := mkKeyParameters {
  curve : CurveLabel
}.

(** What the [key] field of a public key holds at run time.  It is declared a
    string and is one for ECDSA and SM2 keys; for an EdDSA key the library
    hands back the public key as an array of bytes (its [getPublic(enc)] takes
    the first argument, [true], for the encoding and so does not hex-encode),
    and the constructor stores what it is given. *)
Inductive KeyData : Type :=
| Hex (text : string)
| Bytes (bytes : Buffer.t).

Coercion Hex : string >-> KeyData.

Module PublicKey.

Record t : Type := mk {
  key : KeyData;
  algorithm : KeyType.t;
  parameters : KeyParameters
}.

End PublicKey.

Module Signature.

Record t : Type := mk {
  algorithm : SignatureScheme.t;
  value : string;
  publicKeyId : option string
}.

End Signature.

(* ===================================================================== *)
(** ** The collaborators of [PrivateKey]                                  *)
(* ===================================================================== *)

(** One use of a cryptographic collaborator by a method, with its arguments.
    It is recorded when the method turns to the collaborator, whether the
    collaborator then returns or throws. *)
Inductive Call : Type :=
| Hash (schema : SignatureScheme.t) (msg : string)
| EcSign (preset hash key : string)
| EdSign (preset hash key : string)
| Sm2Sign (key : string) (msg : Buffer.t)
| EcPublic (preset key : string)
| EdPublic (preset key : string)
| Sm2Public (key : string)
| ScryptEncrypt (privateKey : string) (publicKeyEncoded : KeyData) (keyphrase : string)
| ScryptDecrypt (encryptedKey keyphrase : string)
| CheckDecrypted (encryptedKey : string) (publicKeyEncoded : KeyData).

(** What the class imports and this development does not embed: the [elliptic]
    and [sm.js] primitives, and the modules [../consts], [../utils],
    [../scrypt], [./Key] and [./KeyType] of the repository.  The only state
    among them is the generator from which the SM2 signer draws its nonce.
    What [elliptic]'s EdDSA interface does whatever its arguments is not a
    parameter: it is in the module [Elliptic] below. *)
Class Env : Type := {
  (** [KeyType.defaultSchema], per key type. *)
  defaultSchema : KeyType.t -> SignatureScheme.t;
  (** [DEFAULT_SM2_ID] of [../consts]. *)
  DEFAULT_SM2_ID : string;
  (** [hexstring2ab] of [../utils]. *)
  hexstring2ab : string -> Buffer.t;
  (** The hash function [Key.computeHash] applies for a scheme; it throws for
      a scheme it has no hash function for. *)
  digest : SignatureScheme.t -> string -> Result string;
  (** [new elliptic.ec(preset).keyFromPrivate(key, 'hex').getPublic(true, 'hex')]:
      the compressed point in hex, or what the library throws (for a preset it
      has no curve for, the assertion of its constructor). *)
  ec_getPublic : string -> string -> Result string;
  (** [eddsa.keyFromSecret(key, 'hex').getPublic(true, 'hex')] once the context
      [eddsa] exists: the bytes of the public key, or what the library
      throws. *)
  eddsa_getPublic : string -> string -> Result Buffer.t;
  (** [sm2.SM2KeyPair(null, key).pubToString('compress')]. *)
  sm2_pubToString : string -> string;
  (** [new elliptic.ec(preset).sign(hash, key, null)]: the pair [(r, s)]. *)
  ec_sign : string -> string -> string -> BN.t * BN.t;
  (** [sm2.SM2KeyPair(null, key).sign(msg)] for a state of the generator:
      the strings [(r, s)]. *)
  sm2_sign : string -> Buffer.t -> N -> string * string;
  (** The generator after one signature. *)
  drbg_next : N -> N;
  (** [ScryptParams] of [../scrypt]. *)
  ScryptParams : Type;
  (** [encrypt(privateKey, publicKeyEncoded, keyphrase, params)] of [../scrypt]. *)
  scrypt_encrypt : string -> KeyData -> string -> option ScryptParams -> Result string;
  (** [decrypt(encryptedKey, keyphrase, params)] of [../scrypt]. *)
  scrypt_decrypt : string -> string -> option ScryptParams -> Result string;
  (** Whether a public key agrees with the anchor embedded in an encrypted key. *)
  anchor_agrees : string -> KeyData -> bool
}.

(** The state the methods thread: the calls made so far, oldest first, and the
    state of the nonce generator. *)
Record World : Type := mkWorld {
  calls : list Call;
  drbg : N
}.

(** A computation that may call collaborators and may throw. *)
Definition M (A : Type) : Type := World -> Result A * World.

Definition ret {A : Type} (a : A) : M A := fun w => (Ok a, w).

Definition throw {A : Type} (e : Thrown) : M A := fun w => (Throw e, w).

Definition bind {A B : Type} (m : M A) (k : A -> M B) : M B :=
  fun w =>
    match m w with
    | (Ok a, w') => k a w'
    | (Throw e, w') => (Throw e, w')
    end.

Definition lift {A : Type} (r : Result A) : M A := fun w => (r, w).

(** The world once one more call has been made. *)
Definition logged (w : World) (c : Call) : World :=
  mkWorld (calls w ++ [c])%list (drbg w).

(** Record a call. *)
Definition call (c : Call) : M unit :=
  fun w => (Ok tt, logged w c).

Declare Scope js_scope.
Delimit Scope js_scope with js.
Notation "x <- m ;; k" := (bind m (fun x => k))
  (at level 61, m at next level, right associativity) : js_scope.
Notation "m ;; k" := (bind m (fun _ => k))
  (at level 61, right associativity) : js_scope.
#[local] Open Scope js_scope.

(** The parts of [elliptic]'s EdDSA interface that decide what the two EdDSA
    methods of [PrivateKey] do for every input. *)
Module Elliptic.

(** [new elliptic.eddsa(preset)]: the constructor asserts that the curve is
    ed25519. *)
Definition new_eddsa (preset : string) : M unit :=
  if String.eqb preset "ed25519"
  then ret tt
  else throw (Error "only tested with ed25519 so far").

(** [signed.R.toArrayLike(Buffer, 'be', 32)] and the same on [signed.S], for
    the object [eddsa.sign] returns: [R] and [S] are methods of that object,
    not numbers, so the property [toArrayLike] read from them is [undefined],
    and calling it throws. *)
Definition signed_R_toArrayLike : M Buffer.t :=
  throw (TypeError "signed.R.toArrayLike is not a function").

Definition signed_S_toArrayLike : M Buffer.t :=
  throw (TypeError "signed.S.toArrayLike is not a function").

End Elliptic.

(** [src/scrypt] is not embedded here; [PrivateKey] calls three of its
    functions. *)
Module Scrypt.
Section WithEnv.
Context {E : Env}.

Definition encrypt (privateKey : string) (publicKeyEncoded : KeyData)
    (keyphrase : string) (params : option ScryptParams) : M string :=
  call (ScryptEncrypt privateKey publicKeyEncoded keyphrase) ;;
  lift (scrypt_encrypt privateKey publicKeyEncoded keyphrase params).

Definition decrypt (encryptedKey keyphrase : string)
    (params : option ScryptParams) : M string :=
  call (ScryptDecrypt encryptedKey keyphrase) ;;
  lift (scrypt_decrypt encryptedKey keyphrase params).

(** Modelled from the spec: [checkDecrypted] of [src/scrypt], which verifies
    the public key derived from the candidate key against the public-key anchor
    embedded during encryption and fails with the decryption error if they
    disagree. *)
Definition checkDecrypted (encryptedKey : string) (publicKeyEncoded : KeyData)
    : M unit :=
  call (CheckDecrypted encryptedKey publicKeyEncoded) ;;
  if anchor_agrees encryptedKey publicKeyEncoded
  then ret tt
  else throw (Code Decrypto_ERROR).

End WithEnv.
End Scrypt.

(* ===================================================================== *)
(** ** The class [PrivateKey]                                             *)
(* ===================================================================== *)

(** The curve family a signature scheme is computed with. *)
Inductive Family : Type :=
| FEcDSA
| FEdDSA
| FSM2.

Module PrivateKey.

Record t : Type := mk {
  key : string;
  algorithm : KeyType.t;
  parameters : KeyParameters
}.

(** The [case] labels of the [switch (schema)] in [computeSignature], tried in
    the order they are written, each with [===]; [None] is the [default]. *)
Definition switch_schema (schema : SignatureScheme.t) : option Family :=
  if SignatureScheme.same schema SignatureScheme.ECDSAwithSHA224 then Some FEcDSA
  else if SignatureScheme.same schema SignatureScheme.ECDSAwithSHA256 then Some FEcDSA
  else if SignatureScheme.same schema SignatureScheme.ECDSAwithSHA384 then Some FEcDSA
  else if SignatureScheme.same schema SignatureScheme.ECDSAwithSHA512 then Some FEcDSA
  else if SignatureScheme.same schema SignatureScheme.ECDSAwithSHA3_224 then Some FEcDSA
  else if SignatureScheme.same schema SignatureScheme.ECDSAwithSHA3_256 then Some FEcDSA
  else if SignatureScheme.same schema SignatureScheme.ECDSAwithSHA3_384 then Some FEcDSA
  else if SignatureScheme.same schema SignatureScheme.ECDSAwithSHA3_512 then Some FEcDSA
  else if SignatureScheme.same schema SignatureScheme.ECDSAwithRIPEMD160 then Some FEcDSA
  else if SignatureScheme.same schema SignatureScheme.EDDSAwithSHA512 then Some FEdDSA
  else if SignatureScheme.same schema SignatureScheme.SM2withSM3 then Some FSM2
  else None.

(** Modelled from the spec: the static table that gives each scheme the one
    key type it is compatible with (ECDSA-family schemes require ECDSA, the
    EdDSA scheme EDDSA, the SM2 scheme SM2); a scheme outside the table has
    none. *)
Definition requiredKeyType (schema : SignatureScheme.t) : option KeyType.t :=
  if SignatureScheme.same schema SignatureScheme.ECDSAwithSHA224 then Some KeyType.ECDSA
  else if SignatureScheme.same schema SignatureScheme.ECDSAwithSHA256 then Some KeyType.ECDSA
  else if SignatureScheme.same schema SignatureScheme.ECDSAwithSHA384 then Some KeyType.ECDSA
  else if SignatureScheme.same schema SignatureScheme.ECDSAwithSHA512 then Some KeyType.ECDSA
  else if SignatureScheme.same schema SignatureScheme.ECDSAwithSHA3_224 then Some KeyType.ECDSA
  else if SignatureScheme.same schema SignatureScheme.ECDSAwithSHA3_256 then Some KeyType.ECDSA
  else if SignatureScheme.same schema SignatureScheme.ECDSAwithSHA3_384 then Some KeyType.ECDSA
  else if SignatureScheme.same schema SignatureScheme.ECDSAwithSHA3_512 then Some KeyType.ECDSA
  else if SignatureScheme.same schema SignatureScheme.ECDSAwithRIPEMD160 then Some KeyType.ECDSA
  else if SignatureScheme.same schema SignatureScheme.EDDSAwithSHA512 then Some KeyType.EDDSA
  else if SignatureScheme.same schema SignatureScheme.SM2withSM3 then Some KeyType.SM2
  else None.

(** Modelled from the spec: [Key.isSchemaSupported] of [src/crypto/Key.ts] (not
    embedded here), which validates that the requested scheme is
    legal for the key's type: the scheme's required key type is the key's
    algorithm. *)
Definition isSchemaSupported (this : t) (schema : SignatureScheme.t) : bool :=
  match requiredKeyType schema with
  | Some required => KeyType.same required (algorithm this)
  | None => false
  end.

Section WithEnv.
Context {E : Env}.

(** Modelled from the spec: [Key.computeHash], which computes the message hash
    with the hash function associated with the scheme. *)
Definition computeHash (this : t) (msg : string) (schema : SignatureScheme.t)
    : M string :=
  call (Hash schema msg) ;;
  lift (digest schema msg).

Definition getEcDSAPublicKey (this : t) : M PublicKey.t :=
  let preset := preset (curve (parameters this)) in
  call (EcPublic preset (key this)) ;;
  pk <- lift (ec_getPublic preset (key this)) ;;
  ret (PublicKey.mk (Hex pk) (algorithm this) (parameters this)).

Definition getEdDSAPublicKey (this : t) : M PublicKey.t :=
  let preset := preset (curve (parameters this)) in
  call (EdPublic preset (key this)) ;;
  Elliptic.new_eddsa preset ;;
  pk <- lift (eddsa_getPublic preset (key this)) ;;
  ret (PublicKey.mk (Bytes pk) (algorithm this) (parameters this)).

Definition getSM2PublicKey (this : t) : M PublicKey.t :=
  call (Sm2Public (key this)) ;;
  let pk := sm2_pubToString (key this) in
  ret (PublicKey.mk (Hex pk) (algorithm this) (parameters this)).

Definition getPublicKey (this : t) : M PublicKey.t :=
  match algorithm this with
  | KeyType.ECDSA => getEcDSAPublicKey this
  | KeyType.EDDSA => getEdDSAPublicKey this
  | KeyType.SM2 => getSM2PublicKey this
  | _ => throw (Error "Unsupported signature schema.")
  end.

Definition decrypt (this : t) (keyphrase : string) (params : option ScryptParams)
    : M t :=
  decrypted <- Scrypt.decrypt (key this) keyphrase params ;;
  let decryptedKey := mk decrypted (algorithm this) (parameters this) in
  pub <- getPublicKey decryptedKey ;;
  Scrypt.checkDecrypted (key this) (PublicKey.key pub) ;;
  ret decryptedKey.

Definition encrypt (this : t) (keyphrase : string) (params : option ScryptParams)
    : M t :=
  pub <- getPublicKey this ;;
  encrypted <- Scrypt.encrypt (key this) (PublicKey.key pub) keyphrase params ;;
  ret (mk encrypted (algorithm this) (parameters this)).

Definition computeEcDSASignature (this : t) (hash : string) : M string :=
  let preset := preset (curve (parameters this)) in
  call (EcSign preset hash (key this)) ;;
  let signed := ec_sign preset hash (key this) in
  r <- lift (BN.toArrayLike_be (fst signed) 32) ;;
  s <- lift (BN.toArrayLike_be (snd signed) 32) ;;
  ret (Buffer.toString_hex (Buffer.concat [r; s])).

Definition computeEdDSASignature (this : t) (hash : string) : M string :=
  let preset := preset (curve (parameters this)) in
  call (EdSign preset hash (key this)) ;;
  Elliptic.new_eddsa preset ;;
  R <- Elliptic.signed_R_toArrayLike ;;
  S <- Elliptic.signed_S_toArrayLike ;;
  ret (Buffer.toString_hex (Buffer.concat [R; S])).

(** [keyPair.sign(msg)]: one signature with the nonce generator as it stands,
    which the call advances. *)
Definition sm2_keyPair_sign (key : string) (msg : Buffer.t) : M (string * string) :=
  fun w =>
    (Ok (sm2_sign key msg (drbg w)),
     mkWorld (calls w ++ [Sm2Sign key msg])%list (drbg_next (drbg w))).

Definition computeSM2Signature (this : t) (hash : string) : M string :=
  signed <- sm2_keyPair_sign (key this) (hexstring2ab hash) ;;
  let id := DEFAULT_SM2_ID in
  ret (Utils.str2hexstr (id ++ String Ascii.zero EmptyString)
         ++ fst signed ++ snd signed).

Definition computeSignature (this : t) (hash : string) (schema : SignatureScheme.t)
    : M string :=
  match switch_schema schema with
  | Some FEcDSA => computeEcDSASignature this hash
  | Some FEdDSA => computeEdDSASignature this hash
  | Some FSM2 => computeSM2Signature this hash
  | None => throw (Error "Unsupported signature schema.")
  end.

(** The first statement of [sign]: an omitted schema is replaced by the default
    schema of the key's type. *)
Definition schema_or_default (this : t) (schema : option SignatureScheme.t)
    : SignatureScheme.t :=
  match schema with
  | None => defaultSchema (algorithm this)
  | Some schema => schema
  end.

Definition sign (this : t) (msg : string) (schema : option SignatureScheme.t)
    (publicKeyId : option string) : M Signature.t :=
  let schema := schema_or_default this schema in
  if negb (isSchemaSupported this schema)
  then throw (Error "Signature schema does not match key type.")
  else
    hash <- computeHash this msg schema ;;
    signed <- computeSignature this hash schema ;;
    ret (Signature.mk schema signed publicKeyId).

End WithEnv.

Section Generation.
(** [secureRandom(n)] for a state of the system generator: the [n] bytes drawn
    and the state after the draw. *)
Variable secureRandom : nat -> N -> Buffer.t * N.
(** [KeyType.fromLabel(DEFAULT_ALGORITHM.algorithm)], which can throw. *)
Variable default_keyType : Result KeyType.t.
(** [KeyParameters.deserializeJson(DEFAULT_ALGORITHM.parameters)], which can
    throw. *)
Variable default_parameters : Result KeyParameters.

(** [PrivateKey.random(keyType, parameters)], run from a state of the system
    generator: an omitted argument is replaced by the default (the key type
    first), then 32 bytes are drawn and become the key, in hex. *)
Definition random (keyType : option KeyType.t) (parameters : option KeyParameters)
    (generator : N) : Result t * N :=
  match (match keyType with Some keyType => Ok keyType | None => default_keyType end) with
  | Throw e => (Throw e, generator)
  | Ok keyType =>
      match (match parameters with
             | Some parameters => Ok parameters
             | None => default_parameters
             end) with
      | Throw e => (Throw e, generator)
      | Ok parameters =>
          let drawn := secureRandom 32 generator in
          (Ok (mk (Utils.ab2hexstring (fst drawn)) keyType parameters), snd drawn)
      end
  end.

End Generation.
End PrivateKey.

(* ===================================================================== *)
(** ** src/network/rest/restClient.ts                                     *)
(* ===================================================================== *)

(** [Map<string, string>]: the entries in insertion order, one per key. *)
Module JsMap.

Definition t : Type := list (string * string).

Definition empty : t := [].

Definition size (m : t) : nat := List.length m.

Fixpoint get (m : t) (k : string) : option string :=
  match m with
  | [] => None
  | (k', v) :: rest => if String.eqb k' k then Some v else get rest k
  end.

(** [m.set(k, v)]: a key already present keeps its place and takes the new
    value; a new key goes last. *)
Fixpoint set (m : t) (k v : string) : t :=
  match m with
  | [] => [(k, v)]
  | (k', v') :: rest =>
      if String.eqb k' k then (k', v) :: rest else (k', v') :: set rest k v
  end.

Definition keys (m : t) : list string := List.map fst m.

End JsMap.

Module Uri.

(** The characters [encodeURIComponent] leaves as they are:
    letters, digits and [- _ . ! ~ * ' ( )]. *)
Definition unreserved (c : ascii) : bool :=
  let n := N_of_ascii c in
  ((65 <=? n) && (n <=? 90) || (97 <=? n) && (n <=? 122) || (48 <=? n) && (n <=? 57)
   || (n =? 45) || (n =? 95) || (n =? 46) || (n =? 33) || (n =? 126) || (n =? 42)
   || (n =? 39) || (n =? 40) || (n =? 41))%N.

Definition upper_hex_digit (n : N) : ascii :=
  match n with
  | 0 => "0" | 1 => "1" | 2 => "2" | 3 => "3" | 4 => "4" | 5 => "5"
  | 6 => "6" | 7 => "7" | 8 => "8" | 9 => "9" | 10 => "A" | 11 => "B"
  | 12 => "C" | 13 => "D" | 14 => "E" | _ => "F"
  end%N%char.

(** [encodeURIComponent(s)] on the UTF-8 bytes of a well-formed string: every
    byte that is not an unreserved character becomes [%XX]. *)
Fixpoint encodeURIComponent (s : string) : string :=
  match s with
  | EmptyString => EmptyString
  | String c rest =>
      if unreserved c
      then String c (encodeURIComponent rest)
      else String "%" (String (upper_hex_digit (N.shiftr (N_of_ascii c) 4))
             (String (upper_hex_digit (N.land (N_of_ascii c) 15))
                (encodeURIComponent rest)))
  end.

End Uri.

Module RestClient.

Record t : Type := mk {
  url : string;
  version : string;
  action : string
}.

(** The body posted with a transaction. *)
Record Body : Type := mkBody {
  Action : string;
  Version : string;
  Data : string
}.

(** An [axios.post(url, body)]. *)
Record Post : Type := mkPost {
  post_url : string;
  post_body : Body
}.

(** What a template literal prints for the result of [Map.get]. *)
Definition show (value : option string) : string :=
  match value with
  | Some v => v
  | None => "undefined"
  end.

Definition concatParams (params : JsMap.t) : string :=
  let result := "" in
  if Nat.eqb (JsMap.size params) 0 then ""
  else
    let result :=
      List.fold_left
        (fun result key =>
           let value := JsMap.get params key in
           let value :=
             match value with
             | Some v => if truthy v then Some (Uri.encodeURIComponent v) else Some v
             | None => None
             end in
           result ++ "&" ++ key ++ "=" ++ show value)
        (JsMap.keys params) result in
    "?" ++ substr_from 1 result.

Section WithUrlConsts.
(** [UrlConsts.Url_send_transaction] of [./urlConsts]. *)
Variable Url_send_transaction : string.

(** The request [sendRawTransaction] posts; the promise it returns resolves to
    the data of the response. *)
Definition sendRawTransaction (this : t) (hexData : string) (preExec : option bool)
    (userId : option string) : Post :=
  let preExec := match preExec with Some b => b | None => false end in
  let param := JsMap.empty in
  let param :=
    match userId with
    | Some userId => if truthy userId then JsMap.set param "userid" userId else param
    | None => param
    end in
  let param := JsMap.set param "preExec" "1" in
  let url := url this ++ Url_send_transaction in
  let url := url ++ concatParams param in
  let body := mkBody (action this) (version this) hexData in
  mkPost url body.

End WithUrlConsts.

(** An [axios.get(url)]. *)
Record Get : Type := mkGet {
  get_url : string
}.

(** An argument of type [number | string]. *)
Inductive NumberOrString : Type :=
| Num (n : Z)
| Str (s : string).

Section WithUrlConstsGet.
(** The constants of [./urlConsts] the methods below read. *)
Variable Url_get_transaction : string.
Variable Url_get_block_by_height : string.
Variable Url_get_block_by_hash : string.
Variable Url_get_contract_state : string.
(** The text [+] gives a number when it is appended to a string. *)
Variable Number_toString : Z -> string.

Definition getRawTransaction (this : t) (txHash : string) : Get :=
  let param := JsMap.empty in
  let param := JsMap.set param "raw" "1" in
  let url := (url this ++ Url_get_transaction) ++ txHash in
  let url := url ++ concatParams param in
  mkGet url.

Definition getRawTransactionJson (this : t) (txHash : string) : Get :=
  let url := (url this ++ Url_get_transaction) ++ txHash in
  mkGet url.

Definition getBlock (this : t) (value : NumberOrString) : Get :=
  let params := JsMap.empty in
  let params := JsMap.set params "raw" "1" in
  let url := "" in
  let url :=
    match value with
    | Num n => (RestClient.url this ++ Url_get_block_by_height) ++ Number_toString n
    | Str s => (RestClient.url this ++ Url_get_block_by_hash) ++ s
    end in
  let url := url ++ concatParams params in
  mkGet url.

Definition getBlockJson (this : t) (value : NumberOrString) : Get :=
  let url := "" in
  let url :=
    match value with
    | Num n => (RestClient.url this ++ Url_get_block_by_height) ++ Number_toString n
    | Str s => (RestClient.url this ++ Url_get_block_by_hash) ++ s
    end in
  mkGet url.

(** [getContract] also prints the URL on the console: the lines printed, and
    the request. *)
Definition getContract (this : t) (codeHash : string) : list string * Get :=
  let params := JsMap.empty in
  let params := JsMap.set params "raw" "1" in
  let url := (url this ++ Url_get_contract_state) ++ codeHash in
  let url := url ++ concatParams params in
  (["url: " ++ url], mkGet url).

Definition getContractJson (this : t) (codeHash : string) : Get :=
  let url := (url this ++ Url_get_contract_state) ++ codeHash in
  mkGet url.

End WithUrlConstsGet.

End RestClient.

(* ===================================================================== *)
(** ** A small executable environment                                     *)
(* ===================================================================== *)

(** Stand-ins for the collaborators, simple enough to run: they let the model
    be evaluated on concrete keys, messages and passphrases. *)
Module Sample.

Definition hex_value (c : ascii) : N :=
  let n := N_of_ascii c in
  (if (48 <=? n) && (n <=? 57) then n - 48
   else if (97 <=? n) && (n <=? 102) then n - 87
   else if (65 <=? n) && (n <=? 70) then n - 55
   else 0)%N.

Fixpoint parse_hex (str : string) : Buffer.t :=
  match str with
  | String a (String b rest) =>
      Buffer.byte_of_N (16 * hex_value a + hex_value b) :: parse_hex rest
  | _ => []
  end.

Definition default_schema (kt : KeyType.t) : SignatureScheme.t :=
  match kt with
  | KeyType.SM2 => SignatureScheme.SM2withSM3
  | KeyType.EDDSA => SignatureScheme.EDDSAwithSHA512
  | _ => SignatureScheme.ECDSAwithSHA256
  end.

(** A rotation of every character by the length of the passphrase. *)
Definition rotate (shift : N) (s : string) : string :=
  string_of_list_ascii
    (List.map (fun c => ascii_of_N ((N_of_ascii c + shift) mod 256))
       (list_ascii_of_string s)).

Definition pass_shift (keyphrase : string) : N := N.of_nat (String.length keyphrase) mod 256.

(** A public key as text: the hex string, or the hex of the bytes. *)
Definition key_text (publicKeyEncoded : KeyData) : string :=
  match publicKeyEncoded with
  | Hex text => text
  | Bytes bytes => Buffer.toString_hex bytes
  end.

(** The first four characters of a public key, the anchor of the stand-in. *)
Definition anchor4 (publicKeyEncoded : KeyData) : string :=
  String.substring 0 4 (key_text publicKeyEncoded ++ "0000").

Definition seal (privateKey : string) (publicKeyEncoded : KeyData) (keyphrase : string)
    (params : option unit) : Result string :=
  Ok (anchor4 publicKeyEncoded ++ rotate (pass_shift keyphrase) privateKey).

Definition unseal (encryptedKey keyphrase : string) (params : option unit)
    : Result string :=
  Ok (rotate (256 - pass_shift keyphrase) (substr_from 4 encryptedKey)).

Definition agrees (encryptedKey : string) (publicKeyEncoded : KeyData) : bool :=
  String.eqb (String.substring 0 4 encryptedKey) (anchor4 publicKeyEncoded).

(** The stand-in for the ECDSA derivation knows the NIST curves only. *)
Definition derive_ec (preset key : string) : Result string :=
  if List.existsb (String.eqb preset) ["p192"; "p224"; "p256"; "p384"; "p521"]
  then Ok ("02" ++ key)
  else Throw (Error ("Unknown curve " ++ preset)).

#[export] Instance env : Env := {|
  defaultSchema := default_schema;
  DEFAULT_SM2_ID := "1234567812345678";
  hexstring2ab := parse_hex;
  digest := fun _ msg => Ok msg;
  ec_getPublic := derive_ec;
  eddsa_getPublic := fun _ key => Ok (parse_hex key);
  sm2_pubToString := fun key => "03" ++ key;
  ec_sign := fun _ hash key =>
    (N.of_nat (String.length hash) + 255, N.of_nat (String.length key) + 1)%N;
  sm2_sign := fun key _ n => ("1f" ++ key, "2e");
  drbg_next := N.succ;
  ScryptParams := unit;
  scrypt_encrypt := seal;
  scrypt_decrypt := unseal;
  anchor_agrees := agrees
|}.

Definition secp256r1 : KeyParameters := mkKeyParameters (mkCurveLabel "P-256" "p256").

Definition sm2p256v1 : KeyParameters := mkKeyParameters (mkCurveLabel "sm2p256v1" "sm2p256v1").

Definition ecdsaKey : PrivateKey.t :=
  PrivateKey.mk "40b6b5a45bc3ba6b" KeyType.ECDSA secp256r1.

Definition sm2Key : PrivateKey.t :=
  PrivateKey.mk "ab80a7ad086249c0" KeyType.SM2 sm2p256v1.

(** [ecdsaKey] encrypted under the passphrase "123456". *)
Definition sealedKey : PrivateKey.t :=
  PrivateKey.mk "0240:6h<h;g:;hi9hg<h" KeyType.ECDSA secp256r1.

Definition world0 : World := mkWorld [] 0.

Definition ed25519 : KeyParameters := mkKeyParameters (mkCurveLabel "ed25519" "ed25519").


Definition eddsaKey : PrivateKey.t :=
  PrivateKey.mk "40b6b5a45bc3ba6b" KeyType.EDDSA ed25519.

(** A key whose type is none of the three static instances. *)
Definition foreignKey : PrivateKey.t :=
  PrivateKey.mk "40b6b5a45bc3ba6b" (KeyType.Other 0) secp256r1.

(** A stand-in for the system generator: the bytes of a counter. *)
Definition draw (n : nat) (generator : N) : Buffer.t * N :=
  (BN.be_bytes n generator, N.succ generator).

End Sample.

(* ===================================================================== *)
(** ** What a lookup by linear scan returns                               *)
(* ===================================================================== *)

(** The outcome of scanning [values] from the first entry for one that
    [matches]: the first matching entry, or the not-found error when no entry
    matches.  This follows the wording of the specification; the lookups
    themselves are the definitions of [SignatureScheme] above. *)
Inductive linear_scan {A : Type} (matches : A -> Prop) (values : list A)
    : Result A -> Prop :=
| scan_found (before : list A) (item : A) (after : list A) :
    values = (before ++ item :: after)%list ->
    Forall (fun v => ~ matches v) before ->
    matches item ->
    linear_scan matches values (Ok item)
| scan_failed :
    Forall (fun v => ~ matches v) values ->
    linear_scan matches values (Throw SchemeNotFoundError).

(* ===================================================================== *)
(** * Properties                                                          *)
(* ===================================================================== *)

(** Concrete instances below are run in the sample environment. *)
#[local] Existing Instance Sample.env.

(** ** Bytes, hex strings and big numbers *)

Lemma Ok_inj {A : Type} (a b : A) : Ok a = Ok b -> a = b.
Proof. intros H. now inversion H. Qed.

Lemma string_length_app (a b : string) :
  String.length (a ++ b) = String.length a + String.length b.
Proof.
  induction a as [|c a IH]; simpl; [reflexivity | now rewrite IH].
Qed.

Lemma toString_hex_length (buf : Buffer.t) :
  String.length (Buffer.toString_hex buf) = 2 * List.length buf.
Proof.
  induction buf as [|b buf IH]; simpl; [reflexivity | rewrite IH; lia].
Qed.

Lemma toString_hex_app (a b : Buffer.t) :
  Buffer.toString_hex (a ++ b)%list = Buffer.toString_hex a ++ Buffer.toString_hex b.
Proof.
  induction a as [|x a IH]; simpl; [reflexivity | now rewrite IH].
Qed.

Lemma byte_of_N_to_N (n : N) :
  Byte.to_N (Buffer.byte_of_N n) = (n mod 256)%N.
Proof.
  unfold Buffer.byte_of_N.
  change 255%N with (N.ones 8). rewrite N.land_ones.
  change (2 ^ 8)%N with 256%N.
  assert (Hlt : (n mod 256 < 256)%N) by (apply N.mod_lt; discriminate).
  apply Byte.to_of_N.
  rewrite byte_of_ascii_via_N.
  now rewrite N_ascii_embedding.
Qed.

Lemma be_bytes_length (len : nat) (n : BN.t) :
  List.length (BN.be_bytes len n) = len.
Proof.
  induction len as [|l IH]; simpl; [reflexivity | now rewrite IH].
Qed.

(** Reading back the [len] bytes written for [n] gives [n] modulo [256^len]. *)
Lemma readBE_be_bytes_acc (len : nat) (n acc : N) :
  List.fold_left (fun a b => (a * 256 + Byte.to_N b)%N) (BN.be_bytes len n) acc
  = (acc * 2 ^ (8 * N.of_nat len) + n mod 2 ^ (8 * N.of_nat len))%N.
Proof.
  revert acc. induction len as [|l IH]; intros acc.
  - simpl. rewrite N.mod_1_r. lia.
  - cbn [BN.be_bytes List.fold_left]. rewrite IH, byte_of_N_to_N.
    rewrite N.shiftr_div_pow2.
    replace (8 * N.of_nat (S l))%N with (8 * N.of_nat l + 8)%N by lia.
    rewrite N.pow_add_r. change (2 ^ 8)%N with 256%N.
    rewrite (N.Div0.mod_mul_r n (2 ^ (8 * N.of_nat l)) 256).
    lia.
Qed.

Lemma readBE_be_bytes (len : nat) (n : N) :
  (n < 2 ^ (8 * N.of_nat len))%N ->
  Buffer.readBE (BN.be_bytes len n) = n.
Proof.
  intros Hlt. unfold Buffer.readBE.
  rewrite readBE_be_bytes_acc, N.mod_small by exact Hlt. lia.
Qed.

Lemma byteLength_le_32 (n : BN.t) :
  (n < 2 ^ 256)%N -> BN.byteLength n <= 32.
Proof.
  intros Hlt. unfold BN.byteLength.
  assert (Hsize : (N.size n <= 256)%N).
  { destruct (N.eq_dec n 0) as [-> | Hnz]; [discriminate|].
    rewrite N.size_log2 by exact Hnz.
    assert (Hpos : (0 < n)%N) by lia.
    apply (N.log2_lt_pow2 n 256 Hpos) in Hlt. lia. }
  change 32 with ((256 + 7) / 8).
  apply Nat.Div0.div_le_mono. lia.
Qed.

Lemma toArrayLike_be_32 (n : BN.t) :
  (n < 2 ^ 256)%N -> BN.toArrayLike_be n 32 = Ok (BN.be_bytes 32 n).
Proof.
  intros Hlt. unfold BN.toArrayLike_be.
  apply byteLength_le_32 in Hlt.
  change (Nat.eqb 32 0) with false. cbv iota.
  apply Nat.leb_le in Hlt. rewrite Hlt. reflexivity.
Qed.

(** Whatever the number, a successful conversion to 32 bytes has 32 bytes. *)
Lemma toArrayLike_be_32_inv (n : BN.t) (bytes : Buffer.t) :
  BN.toArrayLike_be n 32 = Ok bytes ->
  bytes = BN.be_bytes 32 n /\ List.length bytes = 32.
Proof.
  unfold BN.toArrayLike_be.
  change (Nat.eqb 32 0) with false. cbv iota.
  destruct (Nat.leb (BN.byteLength n) 32); cbn [negb].
  - change (Nat.ltb 0 32) with true. cbn [negb].
    intros H. apply Ok_inj in H. rewrite <- H.
    split; [reflexivity | apply be_bytes_length].
  - intros H. discriminate H.
Qed.

(** ** The scheme registry *)

Section Scan.
Context {A : Type} (p : A -> bool) (matches : A -> Prop).
Hypothesis p_reflects : forall v, p v = true <-> matches v.

Lemma array_find_scan (values : list A) :
  linear_scan matches values
    (match array_find p values with
     | None => Throw (Error "Enum value not found")
     | Some item => Ok item
     end).
Proof.
  unfold array_find.
  induction values as [|v values IH]; simpl.
  - apply scan_failed. constructor.
  - destruct (p v) eqn:Hv.
    + apply (scan_found matches (v :: values) [] v values).
      * reflexivity.
      * constructor.
      * now apply p_reflects.
    + assert (Hnot : ~ matches v).
      { intros Hm. apply p_reflects in Hm. congruence. }
      destruct (List.find p values) as [item|]; inversion IH; subst.
      * apply (scan_found matches _ (v :: before) item after).
        -- reflexivity.
        -- now constructor.
        -- assumption.
      * apply scan_failed. now constructor.
Qed.

End Scan.

(** C7.  Each of the three lookups -- [fromHex] by numeric code, [fromLabel] by
    label, [fromLabelJWS] by JWS label -- is a linear scan of the registered
    schemes, whatever the registry holds: it returns the first scheme whose
    field equals the argument exactly, and throws the not-found error when no
    registered scheme has that field equal to the argument.  There is no other
    outcome: no partial match and no default value. *)
Theorem lookups_are_linear_scans :
  forall (values : list SignatureScheme.t) (code : Z) (name jws : string),
    linear_scan (fun v => SignatureScheme.hex v = code) values
      (SignatureScheme.fromHex_in values code)
    /\ linear_scan (fun v => SignatureScheme.label v = name) values
         (SignatureScheme.fromLabel_in values name)
    /\ linear_scan (fun v => SignatureScheme.labelJWS v = jws) values
         (SignatureScheme.fromLabelJWS_in values jws).
Proof.
  intros values code name jws.
  unfold SignatureScheme.fromHex_in, SignatureScheme.fromLabel_in,
    SignatureScheme.fromLabelJWS_in.
  repeat split.
  - apply array_find_scan. intros v. apply Z.eqb_eq.
  - apply array_find_scan. intros v. apply String.eqb_eq.
  - apply array_find_scan. intros v. apply String.eqb_eq.
Qed.

(** The registry after class initialisation: eleven schemes, with the codes
    0 to 10 in order, each sitting at the index that is its identity. *)
Lemma registry_populated :
  List.map SignatureScheme.hex SignatureScheme.values
    = [0; 1; 2; 3; 4; 5; 6; 7; 8; 9; 10]%Z
  /\ List.map SignatureScheme.oid SignatureScheme.values
    = [0; 1; 2; 3; 4; 5; 6; 7; 8; 9; 10]%nat
  /\ SignatureScheme.values =
     [ SignatureScheme.ECDSAwithSHA224; SignatureScheme.ECDSAwithSHA256;
       SignatureScheme.ECDSAwithSHA384; SignatureScheme.ECDSAwithSHA512;
       SignatureScheme.ECDSAwithSHA3_224; SignatureScheme.ECDSAwithSHA3_256;
       SignatureScheme.ECDSAwithSHA3_384; SignatureScheme.ECDSAwithSHA3_512;
       SignatureScheme.ECDSAwithRIPEMD160; SignatureScheme.SM2withSM3;
       SignatureScheme.EDDSAwithSHA512 ].
Proof. repeat split. Qed.

(** C8.  [SignatureScheme.fromHex(1)] returns the scheme whose label is
    "ECDSAwithSHA256" and whose JWS label is "ES256", and
    [SignatureScheme.fromLabel("SM2withSM3")] returns the scheme whose numeric
    code is 9. *)
Theorem registry_lookup_examples :
  (exists s, SignatureScheme.fromHex 1 = Ok s
             /\ s = SignatureScheme.ECDSAwithSHA256
             /\ SignatureScheme.label s = "ECDSAwithSHA256"
             /\ SignatureScheme.labelJWS s = "ES256")
  /\ (exists s, SignatureScheme.fromLabel "SM2withSM3" = Ok s
                /\ s = SignatureScheme.SM2withSM3
                /\ SignatureScheme.hex s = 9%Z).
Proof.
  split.
  - exists SignatureScheme.ECDSAwithSHA256. repeat split.
  - exists SignatureScheme.SM2withSM3. repeat split.
Qed.

(** ** Key types and scheme families *)

Lemma KeyType_same_eq (a b : KeyType.t) : KeyType.same a b = true <-> a = b.
Proof.
  destruct a, b; simpl; split; intros H; try congruence; try discriminate.
  - apply Nat.eqb_eq in H. now subst.
  - inversion H. apply Nat.eqb_refl.
Qed.

(** The compatibility table and the [switch] of [computeSignature] sort the
    schemes into the same three families. *)
Lemma requiredKeyType_switch (schema : SignatureScheme.t) :
  PrivateKey.requiredKeyType schema =
  match PrivateKey.switch_schema schema with
  | Some FEcDSA => Some KeyType.ECDSA
  | Some FEdDSA => Some KeyType.EDDSA
  | Some FSM2 => Some KeyType.SM2
  | None => None
  end.
Proof.
  unfold PrivateKey.requiredKeyType, PrivateKey.switch_schema.
  repeat match goal with
         | |- context [if ?b then _ else _] => destruct b; [reflexivity|]
         end.
  reflexivity.
Qed.

Lemma isSchemaSupported_true (this : PrivateKey.t) (schema : SignatureScheme.t) :
  PrivateKey.isSchemaSupported this schema = true <->
  PrivateKey.requiredKeyType schema = Some (PrivateKey.algorithm this).
Proof.
  unfold PrivateKey.isSchemaSupported.
  destruct (PrivateKey.requiredKeyType schema) as [required|].
  - rewrite KeyType_same_eq. split; congruence.
  - split; discriminate.
Qed.

(** ** Running the methods of [PrivateKey] *)

Section Runs.
Context {E : Env}.

Lemma getPublicKey_run (this : PrivateKey.t) (w : World) :
  PrivateKey.getPublicKey this w =
  match PrivateKey.algorithm this with
  | KeyType.ECDSA =>
      let preset := preset (curve (PrivateKey.parameters this)) in
      (match ec_getPublic preset (PrivateKey.key this) with
       | Ok pk => Ok (PublicKey.mk (Hex pk) (PrivateKey.algorithm this)
                        (PrivateKey.parameters this))
       | Throw e => Throw e
       end,
       logged w (EcPublic preset (PrivateKey.key this)))
  | KeyType.EDDSA =>
      let preset := preset (curve (PrivateKey.parameters this)) in
      (if String.eqb preset "ed25519"
       then match eddsa_getPublic preset (PrivateKey.key this) with
            | Ok pk => Ok (PublicKey.mk (Bytes pk) (PrivateKey.algorithm this)
                             (PrivateKey.parameters this))
            | Throw e => Throw e
            end
       else Throw (Error "only tested with ed25519 so far"),
       logged w (EdPublic preset (PrivateKey.key this)))
  | KeyType.SM2 =>
      (Ok (PublicKey.mk (Hex (sm2_pubToString (PrivateKey.key this)))
             (PrivateKey.algorithm this) (PrivateKey.parameters this)),
       logged w (Sm2Public (PrivateKey.key this)))
  | KeyType.Other _ => (Throw UnsupportedAlgorithmError, w)
  end.
Proof.
  unfold PrivateKey.getPublicKey, PrivateKey.getEcDSAPublicKey,
    PrivateKey.getEdDSAPublicKey, PrivateKey.getSM2PublicKey, Elliptic.new_eddsa,
    bind, call, lift, ret, throw.
  destruct (PrivateKey.algorithm this); cbv zeta; try reflexivity.
  - destruct (ec_getPublic _ _); reflexivity.
  - destruct (String.eqb _ "ed25519"); [|reflexivity].
    destruct (eddsa_getPublic _ _); reflexivity.
Qed.

(** The key a derivation returns does not depend on the calls made before. *)
Lemma getPublicKey_result (this : PrivateKey.t) (w w' : World) :
  fst (PrivateKey.getPublicKey this w) = fst (PrivateKey.getPublicKey this w').
Proof.
  rewrite !getPublicKey_run.
  destruct (PrivateKey.algorithm this); reflexivity.
Qed.

(** A derivation returns for the three key types only. *)
Lemma getPublicKey_ok_supported (this : PrivateKey.t) (w w' : World)
    (pub : PublicKey.t) :
  PrivateKey.getPublicKey this w = (Ok pub, w') ->
  List.In (PrivateKey.algorithm this) [KeyType.ECDSA; KeyType.EDDSA; KeyType.SM2].
Proof.
  rewrite getPublicKey_run.
  destruct (PrivateKey.algorithm this); intros Hrun;
    [simpl; tauto | simpl; tauto | simpl; tauto | discriminate Hrun].
Qed.

End Runs.




Section Encryption.
Context {E : Env}.

Lemma decrypt_run (this : PrivateKey.t) (keyphrase : string)
    (params : option ScryptParams) (w : World) :
  PrivateKey.decrypt this keyphrase params w =
  let w1 := logged w (ScryptDecrypt (PrivateKey.key this) keyphrase) in
  match scrypt_decrypt (PrivateKey.key this) keyphrase params with
  | Throw e => (Throw e, w1)
  | Ok decrypted =>
      let decryptedKey :=
        PrivateKey.mk decrypted (PrivateKey.algorithm this) (PrivateKey.parameters this) in
      match PrivateKey.getPublicKey decryptedKey w1 with
      | (Throw e, w2) => (Throw e, w2)
      | (Ok pub, w2) =>
          let w3 := logged w2 (CheckDecrypted (PrivateKey.key this) (PublicKey.key pub)) in
          if anchor_agrees (PrivateKey.key this) (PublicKey.key pub)
          then (Ok decryptedKey, w3)
          else (Throw DecryptionError, w3)
      end
  end.
Proof.
  unfold PrivateKey.decrypt, Scrypt.decrypt, Scrypt.checkDecrypted, bind, call, lift.
  cbv zeta.
  destruct (scrypt_decrypt (PrivateKey.key this) keyphrase params) as [decrypted|e];
    [|reflexivity].
  destruct (PrivateKey.getPublicKey _ _) as [[pub|e] w2]; [|reflexivity].
  destruct (anchor_agrees _ _); reflexivity.
Qed.

Lemma encrypt_run (this : PrivateKey.t) (keyphrase : string)
    (params : option ScryptParams) (w : World) :
  PrivateKey.encrypt this keyphrase params w =
  match PrivateKey.getPublicKey this w with
  | (Throw e, w1) => (Throw e, w1)
  | (Ok pub, w1) =>
      let w2 :=
        logged w1 (ScryptEncrypt (PrivateKey.key this) (PublicKey.key pub) keyphrase) in
      match scrypt_encrypt (PrivateKey.key this) (PublicKey.key pub) keyphrase params with
      | Throw e => (Throw e, w2)
      | Ok encrypted =>
          (Ok (PrivateKey.mk encrypted (PrivateKey.algorithm this)
                 (PrivateKey.parameters this)), w2)
      end
  end.
Proof.
  unfold PrivateKey.encrypt, Scrypt.encrypt, bind, call, lift.
  destruct (PrivateKey.getPublicKey this w) as [[pub|e] w1]; [|reflexivity].
  destruct (scrypt_encrypt _ _ _ _); reflexivity.
Qed.

End Encryption.

(** C1.  For every encrypted private key and every passphrase: [decrypt]
    returns a key only after it has derived the public key of the candidate key
    and checked it against the anchor embedded in the encrypted key, the check
    being the last call before it returns and the two agreeing; and whenever the
    public key derived from the candidate disagrees with the anchor, [decrypt]
    throws the decryption error and returns no key. *)
Theorem decrypt_verifies_anchor {E : Env} (this : PrivateKey.t) (keyphrase : string)
    (params : option ScryptParams) (w : World) :
  (forall decryptedKey w',
      PrivateKey.decrypt this keyphrase params w = (Ok decryptedKey, w') ->
      exists pub w1,
        scrypt_decrypt (PrivateKey.key this) keyphrase params
          = Ok (PrivateKey.key decryptedKey)
        /\ PrivateKey.getPublicKey decryptedKey
             (logged w (ScryptDecrypt (PrivateKey.key this) keyphrase)) = (Ok pub, w1)
        /\ anchor_agrees (PrivateKey.key this) (PublicKey.key pub) = true
        /\ w' = logged w1 (CheckDecrypted (PrivateKey.key this) (PublicKey.key pub)))
  /\ (forall decrypted pub w1,
        scrypt_decrypt (PrivateKey.key this) keyphrase params = Ok decrypted ->
        PrivateKey.getPublicKey
          (PrivateKey.mk decrypted (PrivateKey.algorithm this) (PrivateKey.parameters this))
          (logged w (ScryptDecrypt (PrivateKey.key this) keyphrase)) = (Ok pub, w1) ->
        anchor_agrees (PrivateKey.key this) (PublicKey.key pub) = false ->
        PrivateKey.decrypt this keyphrase params w =
        (Throw DecryptionError,
         logged w1 (CheckDecrypted (PrivateKey.key this) (PublicKey.key pub)))).
Proof.
  split.
  - intros decryptedKey w'. rewrite decrypt_run. cbv zeta.
    destruct (scrypt_decrypt (PrivateKey.key this) keyphrase params)
      as [decrypted|e]; [|discriminate].
    destruct (PrivateKey.getPublicKey _ _) as [[pub|e] w2] eqn:Hpub; [|discriminate].
    destruct (anchor_agrees _ _) eqn:Hagree; [|discriminate].
    intros H. inversion H; subst. exists pub, w2. simpl. auto.
  - intros decrypted pub w1 Hdec Hpub Hagree.
    rewrite decrypt_run. cbv zeta. rewrite Hdec, Hpub, Hagree. reflexivity.
Qed.

(** The sample key sealed under "123456" and opened with "1234567": the
    candidate's public key disagrees with the anchor, and [decrypt] throws. *)
Lemma decrypt_verifies_anchor_witness :
  scrypt_decrypt (PrivateKey.key Sample.sealedKey) "1234567" None
    = Ok "3/a5a4`34ab2a`5a"
  /\ anchor_agrees (PrivateKey.key Sample.sealedKey) "023/a5a4`34ab2a`5a" = false
  /\ fst (PrivateKey.decrypt Sample.sealedKey "1234567" None Sample.world0)
     = Throw DecryptionError.
Proof.
  split; [reflexivity|]. split; [reflexivity|].
  rewrite (proj2 (decrypt_verifies_anchor Sample.sealedKey "1234567" None Sample.world0)
             "3/a5a4`34ab2a`5a"
             (PublicKey.mk "023/a5a4`34ab2a`5a" KeyType.ECDSA Sample.secp256r1)
             (logged (logged Sample.world0
                        (ScryptDecrypt (PrivateKey.key Sample.sealedKey) "1234567"))
                (EcPublic "p256" "3/a5a4`34ab2a`5a"))).
  - reflexivity.
  - reflexivity.
  - reflexivity.
  - reflexivity.
Defined.

(** C5.  Encrypting a private key under a passphrase and decrypting the result
    under the same passphrase gives back a key with the same raw key, key type
    and key parameters, for every key whose public key can be derived and every
    passphrase (the empty one included), provided the scrypt module honours its
    contract on the values involved: decrypting what it encrypted returns the
    plaintext, and the anchor it embedded agrees with the public key it was
    given. *)
Theorem encrypt_decrypt_roundtrip {E : Env} (this : PrivateKey.t) (keyphrase : string)
    (params : option ScryptParams) (w : World) (pub : PublicKey.t) (encrypted : string) :
  fst (PrivateKey.getPublicKey this w) = Ok pub ->
  scrypt_encrypt (PrivateKey.key this) (PublicKey.key pub) keyphrase params
    = Ok encrypted ->
  scrypt_decrypt encrypted keyphrase params = Ok (PrivateKey.key this) ->
  anchor_agrees encrypted (PublicKey.key pub) = true ->
  exists encryptedKey w1 decryptedKey w2,
    PrivateKey.encrypt this keyphrase params w = (Ok encryptedKey, w1)
    /\ PrivateKey.key encryptedKey = encrypted
    /\ PrivateKey.algorithm encryptedKey = PrivateKey.algorithm this
    /\ PrivateKey.parameters encryptedKey = PrivateKey.parameters this
    /\ PrivateKey.decrypt encryptedKey keyphrase params w1 = (Ok decryptedKey, w2)
    /\ PrivateKey.key decryptedKey = PrivateKey.key this
    /\ PrivateKey.algorithm decryptedKey = PrivateKey.algorithm this
    /\ PrivateKey.parameters decryptedKey = PrivateKey.parameters this.
Proof.
  intros Hpub Henc Hdec Hagree.
  rewrite encrypt_run.
  destruct (PrivateKey.getPublicKey this w) as [[pub0|e] w1] eqn:Hrun;
    simpl in Hpub; [|discriminate].
  apply Ok_inj in Hpub. subst pub0.
  rewrite Henc. cbv zeta.
  destruct this as [k alg ps]. simpl in *.
  set (w2 := logged w1 (ScryptEncrypt k (PublicKey.key pub) keyphrase)).
  set (w3 := logged w2 (ScryptDecrypt encrypted keyphrase)).
  assert (Hpub' : fst (PrivateKey.getPublicKey (PrivateKey.mk k alg ps) w3) = Ok pub).
  { rewrite (getPublicKey_result _ w3 w), Hrun. reflexivity. }
  destruct (PrivateKey.getPublicKey (PrivateKey.mk k alg ps) w3) as [r w4] eqn:Hrun'.
  simpl in Hpub'. subst r.
  exists (PrivateKey.mk encrypted alg ps), w2,
    (PrivateKey.mk k alg ps), (logged w4 (CheckDecrypted encrypted (PublicKey.key pub))).
  split; [reflexivity|]. split; [reflexivity|]. split; [reflexivity|].
  split; [reflexivity|]. split; [|auto].
  rewrite decrypt_run. simpl. rewrite Hdec. fold w2 w3. rewrite Hrun', Hagree.
  reflexivity.
Qed.

Lemma encrypt_decrypt_roundtrip_witness :
  exists encryptedKey w1 decryptedKey w2,
    PrivateKey.encrypt Sample.ecdsaKey "123456" None Sample.world0 = (Ok encryptedKey, w1)
    /\ PrivateKey.key encryptedKey = PrivateKey.key Sample.sealedKey
    /\ PrivateKey.algorithm encryptedKey = KeyType.ECDSA
    /\ PrivateKey.parameters encryptedKey = Sample.secp256r1
    /\ PrivateKey.decrypt encryptedKey "123456" None w1 = (Ok decryptedKey, w2)
    /\ PrivateKey.key decryptedKey = "40b6b5a45bc3ba6b"
    /\ PrivateKey.algorithm decryptedKey = KeyType.ECDSA
    /\ PrivateKey.parameters decryptedKey = Sample.secp256r1.
Proof.
  apply (encrypt_decrypt_roundtrip Sample.ecdsaKey "123456" None Sample.world0
           (PublicKey.mk "0240b6b5a45bc3ba6b" KeyType.ECDSA Sample.secp256r1)
           (PrivateKey.key Sample.sealedKey)).
  - reflexivity.
  - reflexivity.
  - reflexivity.
  - reflexivity.
Defined.

(** ** Signing *)

Lemma toArrayLike_be_32_fits (n : BN.t) (bytes : Buffer.t) :
  BN.toArrayLike_be n 32 = Ok bytes -> (n < 2 ^ 256)%N.
Proof.
  unfold BN.toArrayLike_be.
  change (Nat.eqb 32 0) with false. cbv iota.
  destruct (Nat.leb (BN.byteLength n) 32) eqn:Hle; cbn [negb];
    [intros _ | intros H; discriminate H].
  apply Nat.leb_le in Hle. unfold BN.byteLength in Hle.
  assert (Hsize : (N.size n <= 256)%N).
  { destruct (N.le_gt_cases (N.size n) 256) as [Hok | Hbig]; [exact Hok|].
    exfalso.
    assert (H264 : 264 <= N.to_nat (N.size n) + 7) by lia.
    apply (Nat.Div0.div_le_mono _ _ 8) in H264.
    change (264 / 8) with 33 in H264. lia. }
  apply N.lt_le_trans with (2 ^ N.size n)%N.
  - apply N.size_gt.
  - apply N.pow_le_mono_r; [discriminate | exact Hsize].
Qed.

Lemma toArrayLike_be_32_throws (n : BN.t) (e : Thrown) :
  BN.toArrayLike_be n 32 = Throw e ->
  e = Error "byte array longer than desired length".
Proof.
  unfold BN.toArrayLike_be.
  change (Nat.eqb 32 0) with false. cbv iota.
  destruct (Nat.leb (BN.byteLength n) 32); cbn [negb].
  - change (Nat.ltb 0 32) with true. cbn [negb]. intros H. discriminate H.
  - intros H. now inversion H.
Qed.

Section Signing.
Context {E : Env}.

Lemma computeEcDSASignature_run (this : PrivateKey.t) (hash : string) (w : World) :
  PrivateKey.computeEcDSASignature this hash w =
  let preset := preset (curve (PrivateKey.parameters this)) in
  let signed := ec_sign preset hash (PrivateKey.key this) in
  (match BN.toArrayLike_be (fst signed) 32 with
   | Throw e => Throw e
   | Ok r =>
       match BN.toArrayLike_be (snd signed) 32 with
       | Throw e => Throw e
       | Ok s => Ok (Buffer.toString_hex (r ++ s)%list)
       end
   end,
   logged w (EcSign preset hash (PrivateKey.key this))).
Proof.
  unfold PrivateKey.computeEcDSASignature, bind, call, lift, ret, Buffer.concat.
  cbv zeta.
  destruct (BN.toArrayLike_be (fst _) 32) as [r|e]; [|reflexivity].
  destruct (BN.toArrayLike_be (snd _) 32) as [s|e]; [|reflexivity].
  cbn [List.concat]. now rewrite List.app_nil_r.
Qed.

Lemma computeEdDSASignature_run (this : PrivateKey.t) (hash : string) (w : World) :
  PrivateKey.computeEdDSASignature this hash w =
  let preset := preset (curve (PrivateKey.parameters this)) in
  (Throw (if String.eqb preset "ed25519"
          then TypeError "signed.R.toArrayLike is not a function"
          else Error "only tested with ed25519 so far"),
   logged w (EdSign preset hash (PrivateKey.key this))).
Proof.
  unfold PrivateKey.computeEdDSASignature, Elliptic.new_eddsa,
    Elliptic.signed_R_toArrayLike, bind, call, ret, throw.
  cbv zeta.
  destruct (String.eqb _ "ed25519"); reflexivity.
Qed.

Lemma computeSM2Signature_run (this : PrivateKey.t) (hash : string) (w : World) :
  PrivateKey.computeSM2Signature this hash w =
  let signed := sm2_sign (PrivateKey.key this) (hexstring2ab hash) (drbg w) in
  (Ok (Utils.str2hexstr (DEFAULT_SM2_ID ++ String Ascii.zero EmptyString)
         ++ fst signed ++ snd signed),
   mkWorld (calls w ++ [Sm2Sign (PrivateKey.key this) (hexstring2ab hash)])%list
     (drbg_next (drbg w))).
Proof. reflexivity. Qed.

(** [sign] once the compatibility check has passed. *)
Lemma sign_supported_run (this : PrivateKey.t) (msg : string)
    (arg : option SignatureScheme.t) (publicKeyId : option string) (w : World) :
  let schema := PrivateKey.schema_or_default this arg in
  PrivateKey.isSchemaSupported this schema = true ->
  PrivateKey.sign this msg arg publicKeyId w =
  let w1 := logged w (Hash schema msg) in
  match digest schema msg with
  | Throw e => (Throw e, w1)
  | Ok hash =>
      match PrivateKey.computeSignature this hash schema w1 with
      | (Ok signed, w2) => (Ok (Signature.mk schema signed publicKeyId), w2)
      | (Throw e, w2) => (Throw e, w2)
      end
  end.
Proof.
  intros schema Hsup.
  unfold PrivateKey.sign, PrivateKey.computeHash, bind, call, lift, ret.
  fold schema. rewrite Hsup. cbn [negb]. cbv zeta.
  destruct (digest schema msg) as [hash|e]; [|reflexivity].
  destruct (PrivateKey.computeSignature this hash schema _) as [[signed|e] w2];
    reflexivity.
Qed.

End Signing.

(** C2.  Whenever the key type required by the scheme (the one passed, or the
    default one when none is passed) differs from the algorithm of the key,
    [sign] throws the scheme-mismatch error, and it does so before any hashing
    or signature computation: the world it leaves is the world it found, with
    no call made. *)
Theorem sign_rejects_incompatible_scheme {E : Env} (this : PrivateKey.t)
    (msg : string) (schema : option SignatureScheme.t) (publicKeyId : option string)
    (w : World) (required : KeyType.t) :
  PrivateKey.requiredKeyType (PrivateKey.schema_or_default this schema) = Some required ->
  required <> PrivateKey.algorithm this ->
  PrivateKey.sign this msg schema publicKeyId w = (Throw SchemeMismatchError, w).
Proof.
  intros Hreq Hneq.
  unfold PrivateKey.sign. cbv zeta.
  assert (Hsup : PrivateKey.isSchemaSupported this
                   (PrivateKey.schema_or_default this schema) = false).
  { destruct (PrivateKey.isSchemaSupported this _) eqn:Hs; [|reflexivity].
    apply isSchemaSupported_true in Hs. congruence. }
  rewrite Hsup. reflexivity.
Qed.

Lemma sign_rejects_incompatible_scheme_witness :
  PrivateKey.requiredKeyType
    (PrivateKey.schema_or_default Sample.sm2Key (Some SignatureScheme.ECDSAwithSHA224))
    = Some KeyType.ECDSA
  /\ KeyType.ECDSA <> PrivateKey.algorithm Sample.sm2Key
  /\ PrivateKey.sign Sample.sm2Key "0011" (Some SignatureScheme.ECDSAwithSHA224)
       (Some "pk1") Sample.world0
     = (Throw SchemeMismatchError, Sample.world0).
Proof.
  split; [reflexivity|]. split; [discriminate|].
  apply (sign_rejects_incompatible_scheme Sample.sm2Key "0011"
           (Some SignatureScheme.ECDSAwithSHA224) (Some "pk1") Sample.world0
           KeyType.ECDSA).
  - reflexivity.
  - discriminate.
Defined.

(** C3.  For a scheme of the ECDSA family (one the [switch] of
    [computeSignature] sends to [computeEcDSASignature]) and an ECDSA key, with
    [(r, s)] the pair the ECDSA primitive returns for the hash of the message:
    the encoding of the signature is the 32 big-endian bytes of [r] followed by
    the 32 big-endian bytes of [s], in hex -- 64 bytes, 128 hex digits,
    whatever [r] and [s] are.  Every signature [sign] returns is that encoding,
    and each half reads back as the number it encodes (so it is the number
    itself, zero-padded on the left); and [sign] does return it whenever [r]
    and [s] fit in 32 bytes. *)
Theorem ecdsa_signature_fixed_width {E : Env} (this : PrivateKey.t) (msg : string)
    (arg : option SignatureScheme.t) (publicKeyId : option string) (w : World)
    (hash : string) :
  let schema := PrivateKey.schema_or_default this arg in
  let signed :=
    ec_sign (preset (curve (PrivateKey.parameters this))) hash (PrivateKey.key this) in
  let bytes := (BN.be_bytes 32 (fst signed) ++ BN.be_bytes 32 (snd signed))%list in
  PrivateKey.switch_schema schema = Some FEcDSA ->
  PrivateKey.algorithm this = KeyType.ECDSA ->
  digest schema msg = Ok hash ->
  List.length bytes = 64
  /\ String.length (Buffer.toString_hex bytes) = 128
  /\ (forall sig w',
         PrivateKey.sign this msg arg publicKeyId w = (Ok sig, w') ->
         sig = Signature.mk schema (Buffer.toString_hex bytes) publicKeyId
         /\ Buffer.readBE (BN.be_bytes 32 (fst signed)) = fst signed
         /\ Buffer.readBE (BN.be_bytes 32 (snd signed)) = snd signed)
  /\ ((fst signed < 2 ^ 256)%N -> (snd signed < 2 ^ 256)%N ->
      exists w',
        PrivateKey.sign this msg arg publicKeyId w =
        (Ok (Signature.mk schema (Buffer.toString_hex bytes) publicKeyId), w')).
Proof.
  intros schema signed bytes Hfam Halg Hdig.
  assert (Hlen : List.length bytes = 64).
  { unfold bytes. rewrite List.length_app, !be_bytes_length. reflexivity. }
  assert (Hsup : PrivateKey.isSchemaSupported this schema = true).
  { apply isSchemaSupported_true.
    rewrite requiredKeyType_switch, Hfam, Halg. reflexivity. }
  pose proof (sign_supported_run this msg arg publicKeyId w Hsup) as Hrun.
  cbv zeta in Hrun. fold schema in Hrun. rewrite Hdig in Hrun.
  unfold PrivateKey.computeSignature in Hrun. rewrite Hfam in Hrun.
  rewrite computeEcDSASignature_run in Hrun. cbv zeta in Hrun. fold signed in Hrun.
  split; [exact Hlen|].
  split; [rewrite toString_hex_length, Hlen; reflexivity|].
  split.
  - intros sig w' Hsign. rewrite Hrun in Hsign. clear Hrun.
    destruct (BN.toArrayLike_be (fst signed) 32) as [r|e] eqn:Hr; [|discriminate Hsign].
    destruct (BN.toArrayLike_be (snd signed) 32) as [s|e] eqn:Hs; [|discriminate Hsign].
    pose proof (toArrayLike_be_32_fits _ _ Hr) as Hrfit.
    pose proof (toArrayLike_be_32_fits _ _ Hs) as Hsfit.
    apply toArrayLike_be_32_inv in Hr. destruct Hr as [-> _].
    apply toArrayLike_be_32_inv in Hs. destruct Hs as [-> _].
    fold bytes in Hsign.
    split; [|split].
    + apply (f_equal fst) in Hsign. cbn [fst] in Hsign.
      apply Ok_inj in Hsign. symmetry. exact Hsign.
    + apply readBE_be_bytes. exact Hrfit.
    + apply readBE_be_bytes. exact Hsfit.
  - intros Hrfit Hsfit. rewrite Hrun.
    rewrite (toArrayLike_be_32 _ Hrfit), (toArrayLike_be_32 _ Hsfit).
    eexists. reflexivity.
Qed.

Lemma ecdsa_signature_fixed_width_witness :
  PrivateKey.switch_schema (PrivateKey.schema_or_default Sample.ecdsaKey None)
    = Some FEcDSA
  /\ ec_sign "p256" "0011" (PrivateKey.key Sample.ecdsaKey) = (259, 17)%N
  /\ exists w',
       PrivateKey.sign Sample.ecdsaKey "0011" None None Sample.world0 =
       (Ok (Signature.mk SignatureScheme.ECDSAwithSHA256
              (Buffer.toString_hex (BN.be_bytes 32 259%N ++ BN.be_bytes 32 17%N)%list) None),
        w').
Proof.
  assert (Hfam : PrivateKey.switch_schema
                   (PrivateKey.schema_or_default Sample.ecdsaKey None) = Some FEcDSA)
    by reflexivity.
  assert (Halg : PrivateKey.algorithm Sample.ecdsaKey = KeyType.ECDSA) by reflexivity.
  assert (Hdig : digest (PrivateKey.schema_or_default Sample.ecdsaKey None) "0011"
                 = Ok "0011") by reflexivity.
  split; [exact Hfam|]. split; [reflexivity|].
  destruct (ecdsa_signature_fixed_width Sample.ecdsaKey "0011" None None
              Sample.world0 "0011" Hfam Halg Hdig)
    as (_ & _ & _ & Hsign).
  apply Hsign; reflexivity.
Defined.

Lemma str2hexstr_app (a b : string) :
  Utils.str2hexstr (a ++ b) = Utils.str2hexstr a ++ Utils.str2hexstr b.
Proof.
  unfold Utils.str2hexstr, Utils.ab2hexstring, Utils.str2ab, list_byte_of_string.
  induction a as [|c a IH]; simpl; [reflexivity | now rewrite IH].
Qed.

(** C4.  For the scheme SM2withSM3 (passed, or taken as the default) and an SM2
    key, with [(r, s)] the two strings the SM2 primitive returns for the hash
    of the message: the signature string [sign] returns is the hex encoding of
    the SM2 user identity followed by a NUL byte, then [r], then [s], both as
    the primitive returned them, with no padding.  The hex prefix is the hex of
    the identity followed by the two digits 00. *)
Theorem sm2_signature_encoding {E : Env} (this : PrivateKey.t) (msg : string)
    (arg : option SignatureScheme.t) (publicKeyId : option string) (w : World)
    (hash : string) :
  let signed := sm2_sign (PrivateKey.key this) (hexstring2ab hash) (drbg w) in
  PrivateKey.schema_or_default this arg = SignatureScheme.SM2withSM3 ->
  PrivateKey.algorithm this = KeyType.SM2 ->
  digest SignatureScheme.SM2withSM3 msg = Ok hash ->
  (exists w',
      PrivateKey.sign this msg arg publicKeyId w =
      (Ok (Signature.mk SignatureScheme.SM2withSM3
             (Utils.str2hexstr (DEFAULT_SM2_ID ++ String Ascii.zero EmptyString)
                ++ fst signed ++ snd signed)
             publicKeyId),
       w'))
  /\ Utils.str2hexstr (DEFAULT_SM2_ID ++ String Ascii.zero EmptyString)
     = Utils.str2hexstr DEFAULT_SM2_ID ++ "00".
Proof.
  intros signed Hschema Halg Hdig.
  split; [|apply str2hexstr_app].
  assert (Hsup : PrivateKey.isSchemaSupported this
                   (PrivateKey.schema_or_default this arg) = true).
  { apply isSchemaSupported_true. rewrite Hschema, Halg. reflexivity. }
  rewrite (sign_supported_run this msg arg publicKeyId w Hsup).
  cbv zeta. rewrite Hschema, Hdig.
  unfold PrivateKey.computeSignature.
  change (PrivateKey.switch_schema SignatureScheme.SM2withSM3) with (Some FSM2).
  cbv iota. rewrite computeSM2Signature_run. cbv zeta.
  eexists. reflexivity.
Qed.

Lemma sm2_signature_encoding_witness :
  PrivateKey.schema_or_default Sample.sm2Key None = SignatureScheme.SM2withSM3
  /\ exists w',
       PrivateKey.sign Sample.sm2Key "0011" None (Some "pk1") Sample.world0 =
       (Ok (Signature.mk SignatureScheme.SM2withSM3
              "31323334353637383132333435363738001fab80a7ad086249c02e"
              (Some "pk1")),
        w').
Proof.
  assert (Hschema : PrivateKey.schema_or_default Sample.sm2Key None
                    = SignatureScheme.SM2withSM3) by reflexivity.
  assert (Halg : PrivateKey.algorithm Sample.sm2Key = KeyType.SM2) by reflexivity.
  assert (Hdig : digest SignatureScheme.SM2withSM3 "0011" = Ok "0011") by reflexivity.
  split; [exact Hschema|].
  exact (proj1 (sm2_signature_encoding Sample.sm2Key "0011" None (Some "pk1")
                  Sample.world0 "0011" Hschema Halg Hdig)).
Defined.

(** C9.  For every scheme in the populated registry, [computeSignature] does
    not reach its [default] branch: the [switch] selects one family, the call
    is the call of that family's signing method, the only call it makes is the
    signing primitive of that family, and the unsupported-scheme error is not
    what it throws. *)
Theorem registered_schemes_reach_a_signer {E : Env} (schema : SignatureScheme.t)
    (this : PrivateKey.t) (hash : string) (w : World) :
  List.In schema SignatureScheme.values ->
  exists family,
    PrivateKey.switch_schema schema = Some family
    /\ PrivateKey.computeSignature this hash schema w =
       match family with
       | FEcDSA => PrivateKey.computeEcDSASignature this hash w
       | FEdDSA => PrivateKey.computeEdDSASignature this hash w
       | FSM2 => PrivateKey.computeSM2Signature this hash w
       end
    /\ fst (PrivateKey.computeSignature this hash schema w) <> Throw UnsupportedSchemeError
    /\ calls (snd (PrivateKey.computeSignature this hash schema w)) =
       (calls w ++
        [match family with
         | FEcDSA => EcSign (preset (curve (PrivateKey.parameters this))) hash
                       (PrivateKey.key this)
         | FEdDSA => EdSign (preset (curve (PrivateKey.parameters this))) hash
                       (PrivateKey.key this)
         | FSM2 => Sm2Sign (PrivateKey.key this) (hexstring2ab hash)
         end])%list.
Proof.
  intros Hin.
  assert (Hfam : exists family, PrivateKey.switch_schema schema = Some family).
  { destruct registry_populated as (_ & _ & Hvalues). rewrite Hvalues in Hin.
    simpl in Hin.
    repeat (destruct Hin as [<- | Hin]; [eexists; reflexivity|]).
    contradiction. }
  destruct Hfam as [family Hfam]. exists family.
  split; [exact Hfam|].
  unfold PrivateKey.computeSignature. rewrite Hfam.
  destruct family.
  - split; [reflexivity|]. rewrite computeEcDSASignature_run. cbv zeta. cbn [fst snd].
    split; [|reflexivity].
    destruct (BN.toArrayLike_be (fst _) 32) as [r|e] eqn:Hr.
    + destruct (BN.toArrayLike_be (snd _) 32) as [s|e] eqn:Hs; [discriminate|].
      apply toArrayLike_be_32_throws in Hs. subst e. discriminate.
    + apply toArrayLike_be_32_throws in Hr. subst e. discriminate.
  - split; [reflexivity|]. rewrite computeEdDSASignature_run. cbv zeta. cbn [fst snd].
    split; [|reflexivity].
    destruct (String.eqb _ "ed25519"); discriminate.
  - split; [reflexivity|]. rewrite computeSM2Signature_run. cbv zeta. cbn [fst snd].
    split; [discriminate | reflexivity].
Qed.

Lemma registered_schemes_reach_a_signer_witness :
  List.In SignatureScheme.ECDSAwithRIPEMD160 SignatureScheme.values
  /\ exists family,
       PrivateKey.switch_schema SignatureScheme.ECDSAwithRIPEMD160 = Some family
       /\ fst (PrivateKey.computeSignature Sample.ecdsaKey "0011"
                 SignatureScheme.ECDSAwithRIPEMD160 Sample.world0)
          <> Throw UnsupportedSchemeError.
Proof.
  assert (Hin : List.In SignatureScheme.ECDSAwithRIPEMD160 SignatureScheme.values).
  { simpl. do 8 right. left. reflexivity. }
  split; [exact Hin|].
  destruct (registered_schemes_reach_a_signer SignatureScheme.ECDSAwithRIPEMD160
              Sample.ecdsaKey "0011" Sample.world0 Hin)
    as (family & Hfam & _ & Hnot & _).
  exists family. split; [exact Hfam | exact Hnot].
Defined.

(** ** The REST client *)

Lemma string_app_assoc (a b c : string) : (a ++ b) ++ c = a ++ (b ++ c).
Proof.
  induction a as [|x a IH]; simpl; [reflexivity | now rewrite IH].
Qed.

(** The query string for the two parameter maps [sendRawTransaction] can build. *)
Lemma concatParams_preExec :
  RestClient.concatParams (JsMap.set JsMap.empty "preExec" "1") = "?preExec=1".
Proof. reflexivity. Qed.

Lemma concatParams_userid_preExec (userId : string) :
  truthy userId = true ->
  RestClient.concatParams
    (JsMap.set (JsMap.set JsMap.empty "userid" userId) "preExec" "1")
  = "?userid=" ++ Uri.encodeURIComponent userId ++ "&preExec=1".
Proof.
  intros Htruthy.
  unfold RestClient.concatParams. simpl. rewrite Htruthy. simpl.
  reflexivity.
Qed.

(** C10.  Whatever its arguments, [sendRawTransaction] posts to a URL whose
    query string ends with the parameter [preExec=1] (after the encoded
    [userid] parameter when a non-empty user id is given), and the request does
    not depend on the [preExec] argument: passing [true], [false] or nothing
    gives the same request. *)
Theorem sendRawTransaction_always_preExec (Url_send_transaction : string)
    (this : RestClient.t) (hexData : string) (preExec : option bool)
    (userId : option string) :
  RestClient.post_url
    (RestClient.sendRawTransaction Url_send_transaction this hexData preExec userId)
  = RestClient.url this ++ Url_send_transaction ++ "?"
      ++ match userId with
         | Some id =>
             if truthy id then "userid=" ++ Uri.encodeURIComponent id ++ "&" else ""
         | None => ""
         end
      ++ "preExec=1"
  /\ forall preExec' : option bool,
       RestClient.sendRawTransaction Url_send_transaction this hexData preExec userId
       = RestClient.sendRawTransaction Url_send_transaction this hexData preExec' userId.
Proof.
  split; [|reflexivity].
  unfold RestClient.sendRawTransaction. cbv zeta. cbn [RestClient.post_url].
  rewrite string_app_assoc. f_equal. f_equal.
  destruct userId as [id|]; [destruct (truthy id) eqn:Htruthy|].
  - rewrite (concatParams_userid_preExec id Htruthy).
    simpl. rewrite string_app_assoc. reflexivity.
  - apply concatParams_preExec.
  - apply concatParams_preExec.
Qed.

(* ===================================================================== *)
(** * Further properties of the code                                      *)
(* ===================================================================== *)

(** ** The registry: round trips and registration *)

(** X1.  Looking a registered scheme up by its own code, by its own label or
    by its own JWS label returns that very scheme: no two registered schemes
    share a code, a label or a JWS label. *)
Theorem registered_scheme_lookup_roundtrip (s : SignatureScheme.t) :
  List.In s SignatureScheme.values ->
  SignatureScheme.fromHex (SignatureScheme.hex s) = Ok s
  /\ SignatureScheme.fromLabel (SignatureScheme.label s) = Ok s
  /\ SignatureScheme.fromLabelJWS (SignatureScheme.labelJWS s) = Ok s.
Proof.
  intros Hin.
  destruct registry_populated as (_ & _ & Hvalues). rewrite Hvalues in Hin.
  simpl in Hin.
  repeat (destruct Hin as [<- | Hin]; [repeat split|]).
  contradiction.
Qed.

Lemma registered_scheme_lookup_roundtrip_witness :
  List.In SignatureScheme.EDDSAwithSHA512 SignatureScheme.values
  /\ SignatureScheme.fromHex 10 = Ok SignatureScheme.EDDSAwithSHA512
  /\ SignatureScheme.fromLabel "EDDSAwithSHA512" = Ok SignatureScheme.EDDSAwithSHA512
  /\ SignatureScheme.fromLabelJWS "EDS512" = Ok SignatureScheme.EDDSAwithSHA512.
Proof.
  assert (Hin : List.In SignatureScheme.EDDSAwithSHA512 SignatureScheme.values).
  { simpl. do 10 right. left. reflexivity. }
  split; [exact Hin|].
  exact (registered_scheme_lookup_roundtrip SignatureScheme.EDDSAwithSHA512 Hin).
Defined.

Lemma array_find_push {A : Type} (p : A -> bool) (values : list A) (x : A) :
  array_find p (values ++ [x])%list =
  match array_find p values with
  | Some y => Some y
  | None => if p x then Some x else None
  end.
Proof.
  unfold array_find.
  induction values as [|v values IH]; simpl.
  - reflexivity.
  - destruct (p v); [reflexivity | exact IH].
Qed.

(** X2.  Constructing a scheme appends it to the registry and never shadows a
    scheme registered before: a lookup that found a scheme still finds the same
    one, and a lookup that failed now finds the new scheme exactly when the
    argument equals the new scheme's field. *)
Theorem new_scheme_never_shadows (values : list SignatureScheme.t)
    (label : string) (hex : Z) (labelJWS : string) :
  let this := fst (SignatureScheme.new label hex labelJWS values) in
  let values' := snd (SignatureScheme.new label hex labelJWS values) in
  values' = (values ++ [this])%list
  /\ SignatureScheme.oid this = List.length values
  /\ (forall code,
        SignatureScheme.fromHex_in values' code =
        match SignatureScheme.fromHex_in values code with
        | Ok s => Ok s
        | Throw e => if Z.eqb hex code then Ok this else Throw e
        end)
  /\ (forall name,
        SignatureScheme.fromLabel_in values' name =
        match SignatureScheme.fromLabel_in values name with
        | Ok s => Ok s
        | Throw e => if String.eqb label name then Ok this else Throw e
        end)
  /\ (forall name,
        SignatureScheme.fromLabelJWS_in values' name =
        match SignatureScheme.fromLabelJWS_in values name with
        | Ok s => Ok s
        | Throw e => if String.eqb labelJWS name then Ok this else Throw e
        end).
Proof.
  cbv zeta. cbn [SignatureScheme.new fst snd].
  split; [reflexivity|]. split; [reflexivity|].
  unfold SignatureScheme.fromHex_in, SignatureScheme.fromLabel_in,
    SignatureScheme.fromLabelJWS_in.
  repeat split; intros k; rewrite array_find_push; cbn [SignatureScheme.hex
    SignatureScheme.label SignatureScheme.labelJWS];
    destruct (array_find _ values); try reflexivity;
    match goal with |- context [if ?b then _ else _] => destruct b end; reflexivity.
Qed.

(** X3.  The [switch] of [computeSignature] compares objects, not fields: a
    scheme constructed once the eleven static schemes exist is sent to the
    [default] branch whatever its label, code and JWS label are -- also when
    they repeat those of a registered scheme -- and no primitive is called. *)
Theorem late_scheme_is_unsupported {E : Env} (values : list SignatureScheme.t)
    (label : string) (hex : Z) (labelJWS : string)
    (this : PrivateKey.t) (hash : string) (w : World) :
  11 <= List.length values ->
  PrivateKey.computeSignature this hash
    (fst (SignatureScheme.new label hex labelJWS values)) w
  = (Throw UnsupportedSchemeError, w).
Proof.
  intros Hlen.
  unfold PrivateKey.computeSignature, PrivateKey.switch_schema, SignatureScheme.same.
  cbn [SignatureScheme.new fst SignatureScheme.oid].
  remember (List.length values) as n eqn:Hn. clear Hn.
  do 11 (destruct n as [|n]; [lia|]).
  reflexivity.
Qed.

Lemma late_scheme_is_unsupported_witness :
  11 <= List.length SignatureScheme.values
  /\ PrivateKey.computeSignature Sample.ecdsaKey "0011"
       (fst (SignatureScheme.new "ECDSAwithSHA256" 1 "ES256" SignatureScheme.values))
       Sample.world0
     = (Throw UnsupportedSchemeError, Sample.world0).
Proof.
  assert (Hlen : 11 <= List.length SignatureScheme.values) by (simpl; lia).
  split; [exact Hlen|].
  exact (late_scheme_is_unsupported SignatureScheme.values "ECDSAwithSHA256" 1
           "ES256" Sample.ecdsaKey "0011" Sample.world0 Hlen).
Defined.

(** ** The two fixed-width signers *)

Lemma toArrayLike_be_32_outcome (n : BN.t) :
  BN.toArrayLike_be n 32 =
  if (n <? 2 ^ 256)%N
  then Ok (BN.be_bytes 32 n)
  else Throw (Error "byte array longer than desired length").
Proof.
  destruct (N.ltb_spec n (2 ^ 256)) as [Hlt | Hge].
  - apply toArrayLike_be_32. exact Hlt.
  - destruct (BN.toArrayLike_be n 32) as [bytes|e] eqn:Hrun.
    + apply toArrayLike_be_32_fits in Hrun. apply N.le_ngt in Hge. contradiction.
    + apply toArrayLike_be_32_throws in Hrun. now subst e.
Qed.

(** The characters [toString('hex')] writes. *)
Lemma hex_digit_lower (n : N) :
  List.In (Buffer.hex_digit n) (list_ascii_of_string "0123456789abcdef").
Proof.
  destruct n as [|p]; [simpl; auto 20|].
  do 4 (try destruct p as [p|p|]); simpl; auto 20.
Qed.

Lemma list_ascii_of_string_app (a b : string) :
  list_ascii_of_string (a ++ b) = (list_ascii_of_string a ++ list_ascii_of_string b)%list.
Proof.
  induction a as [|c a IH]; simpl; [reflexivity | now rewrite IH].
Qed.

Lemma toString_hex_lower (buf : Buffer.t) :
  List.Forall (fun c => List.In c (list_ascii_of_string "0123456789abcdef"))
    (list_ascii_of_string (Buffer.toString_hex buf)).
Proof.
  induction buf as [|b buf IH].
  - constructor.
  - cbn [Buffer.toString_hex]. rewrite list_ascii_of_string_app.
    apply List.Forall_app. split; [|exact IH].
    unfold Buffer.byte_hex. cbn [list_ascii_of_string].
    constructor; [apply hex_digit_lower|].
    constructor; [apply hex_digit_lower|]. constructor.
Qed.

(** Case analysis on the next test that a number fits in 32 bytes. *)
Ltac case_fits :=
  match goal with
  | |- context [(?a <? 2 ^ 256)%N] => destruct (a <? 2 ^ 256)%N
  | H : context [(?a <? 2 ^ 256)%N] |- _ => destruct (a <? 2 ^ 256)%N
  end.

(** X4.  [computeEcDSASignature] calls the ECDSA primitive once and then
    returns the 64-byte encoding exactly when both [r] and [s] are below
    [2^256]; when either needs more than 32 bytes (a curve wider than 256
    bits) it throws the big-number assertion error instead of returning a
    longer or truncated signature. *)
Theorem computeEcDSASignature_outcome {E : Env} (this : PrivateKey.t)
    (hash : string) (w : World) :
  let preset := preset (curve (PrivateKey.parameters this)) in
  let signed := ec_sign preset hash (PrivateKey.key this) in
  PrivateKey.computeEcDSASignature this hash w =
  (if ((fst signed <? 2 ^ 256) && (snd signed <? 2 ^ 256))%N
   then Ok (Buffer.toString_hex
              (BN.be_bytes 32 (fst signed) ++ BN.be_bytes 32 (snd signed))%list)
   else Throw (Error "byte array longer than desired length"),
   logged w (EcSign preset hash (PrivateKey.key this))).
Proof.
  cbv zeta. rewrite computeEcDSASignature_run. cbv zeta.
  rewrite !toArrayLike_be_32_outcome.
  case_fits; [|reflexivity].
  case_fits; reflexivity.
Qed.



(** X6.  Every string [computeEcDSASignature] or [computeEdDSASignature]
    returns has exactly 128 characters, each a lower-case hex digit. *)
Theorem fixed_width_signature_alphabet {E : Env} (this : PrivateKey.t)
    (hash : string) (w w' : World) (signed : string) :
  PrivateKey.computeEcDSASignature this hash w = (Ok signed, w')
  \/ PrivateKey.computeEdDSASignature this hash w = (Ok signed, w') ->
  String.length signed = 128
  /\ List.Forall (fun c => List.In c (list_ascii_of_string "0123456789abcdef"))
       (list_ascii_of_string signed).
Proof.
  intros Hrun.
  assert (Hshape : exists a b : BN.t,
             signed = Buffer.toString_hex (BN.be_bytes 32 a ++ BN.be_bytes 32 b)%list).
  { destruct Hrun as [Hrun | Hrun];
      [rewrite computeEcDSASignature_run in Hrun
      |rewrite computeEdDSASignature_run in Hrun; discriminate Hrun].
    cbv zeta in Hrun. rewrite !toArrayLike_be_32_outcome in Hrun.
    apply (f_equal fst) in Hrun. cbn [fst] in Hrun.
    case_fits; try discriminate Hrun;
      case_fits; try discriminate Hrun;
      apply Ok_inj in Hrun; eexists; eexists; symmetry; exact Hrun. }
  destruct Hshape as (a & b & ->).
  split.
  - rewrite toString_hex_length, List.length_app, !be_bytes_length. reflexivity.
  - apply toString_hex_lower.
Qed.

Lemma fixed_width_signature_alphabet_witness :
  String.length "00000000000000000000000000000000000000000000000000000000000001030000000000000000000000000000000000000000000000000000000000000011" = 128
  /\ List.Forall (fun c => List.In c (list_ascii_of_string "0123456789abcdef"))
       (list_ascii_of_string "00000000000000000000000000000000000000000000000000000000000001030000000000000000000000000000000000000000000000000000000000000011").
Proof.
  apply (fixed_width_signature_alphabet Sample.ecdsaKey "0011" Sample.world0
           (logged Sample.world0 (EcSign "p256" "0011" "40b6b5a45bc3ba6b"))).
  left. reflexivity.
Defined.

(** ** What [sign] does on success and on failure *)

(** Split an equation between two outcomes into its result and its world,
    without computing either side. *)
Ltac split_run H Hres Hworld :=
  pose proof (f_equal fst H) as Hres;
  pose proof (f_equal snd H) as Hworld;
  cbn [fst snd] in Hres, Hworld; clear H.

Lemma logged_twice_calls (w : World) (c1 c2 : Call) :
  calls (logged (logged w c1) c2) = (calls w ++ [c1; c2])%list.
Proof.
  unfold logged. cbn [calls]. now rewrite <- List.app_assoc.
Qed.

Section SignOutcomes.
Context {E : Env}.

(** [computeSignature] for a scheme of a known family: the method it runs and
    the one call it records. *)
Lemma computeSignature_family_run (this : PrivateKey.t) (hash : string)
    (schema : SignatureScheme.t) (family : Family) (w : World) :
  PrivateKey.switch_schema schema = Some family ->
  PrivateKey.computeSignature this hash schema w =
    match family with
    | FEcDSA => PrivateKey.computeEcDSASignature this hash w
    | FEdDSA => PrivateKey.computeEdDSASignature this hash w
    | FSM2 => PrivateKey.computeSM2Signature this hash w
    end
  /\ calls (snd (PrivateKey.computeSignature this hash schema w)) =
    (calls w ++
     [match family with
      | FEcDSA => EcSign (preset (curve (PrivateKey.parameters this))) hash
                    (PrivateKey.key this)
      | FEdDSA => EdSign (preset (curve (PrivateKey.parameters this))) hash
                    (PrivateKey.key this)
      | FSM2 => Sm2Sign (PrivateKey.key this) (hexstring2ab hash)
      end])%list.
Proof.
  intros Hfam. unfold PrivateKey.computeSignature. rewrite Hfam.
  destruct family; (split; [reflexivity|]).
  - rewrite computeEcDSASignature_run. reflexivity.
  - rewrite computeEdDSASignature_run. reflexivity.
  - rewrite computeSM2Signature_run. reflexivity.
Qed.

End SignOutcomes.

(** X7.  When [sign] returns a signature, it carries the schema that was used
    (the one passed, or the default of the key type) and the [publicKeyId]
    that was passed; the schema is compatible with the key; and exactly two
    calls were made, in this order: the hash of the message under that schema,
    then the signing primitive of the schema's family on that hash -- for SM2
    too, the primitive is given the bytes of the hash, not the message. *)
Theorem sign_success_trace {E : Env} (this : PrivateKey.t) (msg : string)
    (arg : option SignatureScheme.t) (publicKeyId : option string)
    (w w' : World) (sig : Signature.t) :
  let schema := PrivateKey.schema_or_default this arg in
  PrivateKey.sign this msg arg publicKeyId w = (Ok sig, w') ->
  exists family hash signed,
    PrivateKey.requiredKeyType schema = Some (PrivateKey.algorithm this)
    /\ PrivateKey.switch_schema schema = Some family
    /\ digest schema msg = Ok hash
    /\ sig = Signature.mk schema signed publicKeyId
    /\ calls w' =
       (calls w ++
        [Hash schema msg;
         match family with
         | FEcDSA => EcSign (preset (curve (PrivateKey.parameters this))) hash
                       (PrivateKey.key this)
         | FEdDSA => EdSign (preset (curve (PrivateKey.parameters this))) hash
                       (PrivateKey.key this)
         | FSM2 => Sm2Sign (PrivateKey.key this) (hexstring2ab hash)
         end])%list.
Proof.
  intros schema Hsign.
  destruct (PrivateKey.isSchemaSupported this schema) eqn:Hsup.
  - pose proof (sign_supported_run this msg arg publicKeyId w Hsup) as Hrun.
    cbv zeta in Hrun. fold schema in Hrun. rewrite Hrun in Hsign. clear Hrun.
    apply isSchemaSupported_true in Hsup.
    destruct (digest schema msg) as [hash|e]; [|discriminate Hsign].
    assert (Hfam : exists family, PrivateKey.switch_schema schema = Some family).
    { rewrite requiredKeyType_switch in Hsup.
      destruct (PrivateKey.switch_schema schema) as [family|];
        [now exists family | discriminate Hsup]. }
    destruct Hfam as [family Hfam].
    destruct (computeSignature_family_run this hash schema family
                (logged w (Hash schema msg)) Hfam) as [_ Hcalls].
    destruct (PrivateKey.computeSignature this hash schema _) as [[signed|e] w2];
      [|discriminate Hsign].
    split_run Hsign Hres Hworld. apply Ok_inj in Hres. subst w2.
    exists family, hash, signed.
    repeat (split; [first [assumption | reflexivity | now symmetry]|]).
    cbn [snd] in Hcalls. rewrite Hcalls. unfold logged. cbn [calls].
    now rewrite <- List.app_assoc.
  - unfold PrivateKey.sign in Hsign. cbv zeta in Hsign. fold schema in Hsign.
    rewrite Hsup in Hsign. discriminate Hsign.
Qed.

Lemma sign_success_trace_witness :
  exists family hash signed,
    PrivateKey.requiredKeyType SignatureScheme.SM2withSM3 = Some KeyType.SM2
    /\ PrivateKey.switch_schema SignatureScheme.SM2withSM3 = Some family
    /\ digest SignatureScheme.SM2withSM3 "0011" = Ok hash
    /\ Signature.mk SignatureScheme.SM2withSM3
         "31323334353637383132333435363738001fab80a7ad086249c02e" (Some "pk1")
       = Signature.mk SignatureScheme.SM2withSM3 signed (Some "pk1")
    /\ calls (mkWorld [Hash SignatureScheme.SM2withSM3 "0011";
                       Sm2Sign "ab80a7ad086249c0" [Byte.x00; Byte.x11]] 1) =
       ([] ++
        [Hash SignatureScheme.SM2withSM3 "0011";
         match family with
         | FEcDSA => EcSign "sm2p256v1" hash "ab80a7ad086249c0"
         | FEdDSA => EdSign "sm2p256v1" hash "ab80a7ad086249c0"
         | FSM2 => Sm2Sign "ab80a7ad086249c0" (hexstring2ab hash)
         end])%list.
Proof.
  assert (Hsign :
    PrivateKey.sign Sample.sm2Key "0011" None (Some "pk1") Sample.world0 =
    (Ok (Signature.mk SignatureScheme.SM2withSM3
           "31323334353637383132333435363738001fab80a7ad086249c02e" (Some "pk1")),
     mkWorld [Hash SignatureScheme.SM2withSM3 "0011";
              Sm2Sign "ab80a7ad086249c0" [Byte.x00; Byte.x11]] 1)) by reflexivity.
  exact (sign_success_trace Sample.sm2Key "0011" None (Some "pk1") Sample.world0
           _ _ Hsign).
Defined.

(** X8.  When [sign] throws, it does so at one of three stages.  Before any
    call, with the mismatch error, when the schema is not compatible with the
    key.  After the one hash call, with the error of the hash step.  Or after
    the hash and one signing call, with whatever the signing method of the
    schema's family threw: the schema is then one of the case labels of
    [computeSignature], so the [default] branch of that [switch] is never
    reached from [sign]. *)
Theorem sign_failure_stages {E : Env} (this : PrivateKey.t) (msg : string)
    (arg : option SignatureScheme.t) (publicKeyId : option string)
    (w w' : World) (e : Thrown) :
  let schema := PrivateKey.schema_or_default this arg in
  PrivateKey.sign this msg arg publicKeyId w = (Throw e, w') ->
  (e = SchemeMismatchError /\ w' = w
   /\ PrivateKey.requiredKeyType schema <> Some (PrivateKey.algorithm this))
  \/ (digest schema msg = Throw e /\ w' = logged w (Hash schema msg))
  \/ (exists hash family,
        digest schema msg = Ok hash
        /\ PrivateKey.switch_schema schema = Some family
        /\ match family with
           | FEcDSA => PrivateKey.computeEcDSASignature this hash
           | FEdDSA => PrivateKey.computeEdDSASignature this hash
           | FSM2 => PrivateKey.computeSM2Signature this hash
           end (logged w (Hash schema msg)) = (Throw e, w')
        /\ calls w' =
           (calls w ++
            [Hash schema msg;
             match family with
             | FEcDSA => EcSign (preset (curve (PrivateKey.parameters this))) hash
                           (PrivateKey.key this)
             | FEdDSA => EdSign (preset (curve (PrivateKey.parameters this))) hash
                           (PrivateKey.key this)
             | FSM2 => Sm2Sign (PrivateKey.key this) (hexstring2ab hash)
             end])%list).
Proof.
  intros schema Hsign.
  destruct (PrivateKey.isSchemaSupported this schema) eqn:Hsup.
  - right.
    pose proof (sign_supported_run this msg arg publicKeyId w Hsup) as Hrun.
    cbv zeta in Hrun. fold schema in Hrun. rewrite Hrun in Hsign. clear Hrun.
    apply isSchemaSupported_true in Hsup.
    destruct (digest schema msg) as [hash|e0].
    + right.
      assert (Hfam : exists family, PrivateKey.switch_schema schema = Some family).
      { pose proof Hsup as Hreq. rewrite requiredKeyType_switch in Hreq.
        destruct (PrivateKey.switch_schema schema) as [family|];
          [now exists family | discriminate Hreq]. }
      destruct Hfam as [family Hfam].
      destruct (computeSignature_family_run this hash schema family
                  (logged w (Hash schema msg)) Hfam) as [Hmethod Hcalls].
      destruct (PrivateKey.computeSignature this hash schema _) as [[signed|e1] w2];
        [discriminate Hsign|].
      split_run Hsign Hres Hworld. subst w2.
      assert (He : e1 = e) by (now inversion Hres). subst e1.
      exists hash, family.
      split; [reflexivity|]. split; [exact Hfam|].
      split; [destruct family; symmetry; exact Hmethod|].
      cbn [snd] in Hcalls. rewrite Hcalls. unfold logged. cbn [calls].
      now rewrite <- List.app_assoc.
    + left. split_run Hsign Hres Hworld.
      split; [f_equal; now inversion Hres | now symmetry].
  - left.
    unfold PrivateKey.sign in Hsign. cbv zeta in Hsign. fold schema in Hsign.
    rewrite Hsup in Hsign. cbn [negb] in Hsign. unfold throw in Hsign.
    split_run Hsign Hres Hworld.
    split; [now inversion Hres|]. split; [now symmetry|].
    intros Hreq. apply isSchemaSupported_true in Hreq. congruence.
Qed.

Lemma sign_failure_stages_witness :
  exists hash family,
    digest SignatureScheme.EDDSAwithSHA512 "0011" = Ok hash
    /\ PrivateKey.switch_schema SignatureScheme.EDDSAwithSHA512 = Some family
    /\ family = FEdDSA.
Proof.
  assert (Hsign :
    PrivateKey.sign Sample.eddsaKey "0011" None None Sample.world0 =
    (Throw (TypeError "signed.R.toArrayLike is not a function"),
     mkWorld [Hash SignatureScheme.EDDSAwithSHA512 "0011";
              EdSign "ed25519" "0011" "40b6b5a45bc3ba6b"] 0)) by reflexivity.
  destruct (sign_failure_stages Sample.eddsaKey "0011" None None Sample.world0
              _ _ Hsign)
    as [(He & _) | [(Hdig & _) | (hash & family & Hdig & Hfam & _)]].
  - discriminate He.
  - discriminate Hdig.
  - exists hash, family. split; [exact Hdig|]. split; [exact Hfam|].
    assert (Hfam' : PrivateKey.switch_schema SignatureScheme.EDDSAwithSHA512
                    = Some FEdDSA) by reflexivity.
    assert (Hfam'' : PrivateKey.switch_schema
                       (PrivateKey.schema_or_default Sample.eddsaKey None)
                     = Some family) by exact Hfam.
    change (PrivateKey.schema_or_default Sample.eddsaKey None)
      with SignatureScheme.EDDSAwithSHA512 in Hfam''.
    congruence.
Defined.

(** ** Encryption and decryption: what is bound, what is kept, how they fail *)

(** X9.  A key whose type is none of ECDSA, EDDSA and SM2 cannot be encrypted
    or decrypted: [encrypt] throws the unsupported-algorithm error before it
    calls scrypt at all, and [decrypt] never returns a key -- it calls scrypt's
    decrypt, then throws (scrypt's error, or the unsupported-algorithm error)
    without reaching the anchor check. *)
Theorem unsupported_key_encrypt_decrypt {E : Env} (this : PrivateKey.t)
    (keyphrase : string) (params : option ScryptParams) (w : World) (oid : nat) :
  PrivateKey.algorithm this = KeyType.Other oid ->
  PrivateKey.encrypt this keyphrase params w = (Throw UnsupportedAlgorithmError, w)
  /\ PrivateKey.decrypt this keyphrase params w =
     (Throw (match scrypt_decrypt (PrivateKey.key this) keyphrase params with
             | Throw e => e
             | Ok _ => UnsupportedAlgorithmError
             end),
      logged w (ScryptDecrypt (PrivateKey.key this) keyphrase)).
Proof.
  intros Halg. split.
  - rewrite encrypt_run, getPublicKey_run, Halg. reflexivity.
  - rewrite decrypt_run. cbv zeta.
    destruct (scrypt_decrypt (PrivateKey.key this) keyphrase params) as [d|e];
      [|reflexivity].
    rewrite getPublicKey_run. cbn [PrivateKey.algorithm]. rewrite Halg. reflexivity.
Qed.

Lemma unsupported_key_encrypt_decrypt_witness :
  PrivateKey.algorithm Sample.foreignKey = KeyType.Other 0
  /\ PrivateKey.encrypt Sample.foreignKey "123456" None Sample.world0
     = (Throw UnsupportedAlgorithmError, Sample.world0)
  /\ PrivateKey.decrypt Sample.foreignKey "123456" None Sample.world0
     = (Throw UnsupportedAlgorithmError,
        logged Sample.world0 (ScryptDecrypt "40b6b5a45bc3ba6b" "123456")).
Proof.
  assert (Halg : PrivateKey.algorithm Sample.foreignKey = KeyType.Other 0)
    by reflexivity.
  split; [exact Halg|].
  exact (unsupported_key_encrypt_decrypt Sample.foreignKey "123456" None
           Sample.world0 0 Halg).
Defined.

(** X10.  When [encrypt] returns a key, its raw key is what scrypt's encrypt
    returned for the plaintext key, the passphrase and the public key derived
    from this very key -- derived first, in the same call -- so the anchor of
    an encrypted key is always the key's own public key.  *)
Theorem encrypt_binds_own_public_key {E : Env} (this : PrivateKey.t)
    (keyphrase : string) (params : option ScryptParams) (w w' : World)
    (encryptedKey : PrivateKey.t) :
  PrivateKey.encrypt this keyphrase params w = (Ok encryptedKey, w') ->
  exists pub w1,
    PrivateKey.getPublicKey this w = (Ok pub, w1)
    /\ scrypt_encrypt (PrivateKey.key this) (PublicKey.key pub) keyphrase params
       = Ok (PrivateKey.key encryptedKey)
    /\ w' = logged w1 (ScryptEncrypt (PrivateKey.key this) (PublicKey.key pub) keyphrase).
Proof.
  intros Hrun. rewrite encrypt_run in Hrun.
  destruct (PrivateKey.getPublicKey this w) as [[pub|e] w1]; [|discriminate Hrun].
  cbv zeta in Hrun.
  destruct (scrypt_encrypt _ _ _ _) as [encrypted|e] eqn:Henc; [|discriminate Hrun].
  split_run Hrun Hres Hworld. apply Ok_inj in Hres. subst encryptedKey.
  exists pub, w1.
  split; [reflexivity|]. split; [exact Henc|]. symmetry. exact Hworld.
Qed.

Lemma encrypt_binds_own_public_key_witness :
  exists pub w1,
    PrivateKey.getPublicKey Sample.ecdsaKey Sample.world0 = (Ok pub, w1)
    /\ scrypt_encrypt (PrivateKey.key Sample.ecdsaKey) (PublicKey.key pub) "123456" None
       = Ok (PrivateKey.key Sample.sealedKey)
    /\ logged (logged Sample.world0 (EcPublic "p256" "40b6b5a45bc3ba6b"))
         (ScryptEncrypt "40b6b5a45bc3ba6b" "0240b6b5a45bc3ba6b" "123456")
       = logged w1
           (ScryptEncrypt (PrivateKey.key Sample.ecdsaKey) (PublicKey.key pub) "123456").
Proof.
  assert (Hrun :
    PrivateKey.encrypt Sample.ecdsaKey "123456" None Sample.world0 =
    (Ok Sample.sealedKey,
     logged (logged Sample.world0 (EcPublic "p256" "40b6b5a45bc3ba6b"))
       (ScryptEncrypt "40b6b5a45bc3ba6b" "0240b6b5a45bc3ba6b" "123456")))
    by reflexivity.
  exact (encrypt_binds_own_public_key Sample.ecdsaKey "123456" None Sample.world0
           _ _ Hrun).
Defined.

(** X11.  Whatever key [encrypt] or [decrypt] returns has the key type and the
    key parameters of the key it was called on, and that key type is one of
    ECDSA, EDDSA and SM2. *)
Theorem encrypt_decrypt_keep_algorithm {E : Env} (this : PrivateKey.t)
    (keyphrase : string) (params : option ScryptParams) (w w' : World)
    (result : PrivateKey.t) :
  PrivateKey.encrypt this keyphrase params w = (Ok result, w')
  \/ PrivateKey.decrypt this keyphrase params w = (Ok result, w') ->
  PrivateKey.algorithm result = PrivateKey.algorithm this
  /\ PrivateKey.parameters result = PrivateKey.parameters this
  /\ List.In (PrivateKey.algorithm this) [KeyType.ECDSA; KeyType.EDDSA; KeyType.SM2].
Proof.
  intros [Hrun | Hrun].
  - rewrite encrypt_run in Hrun.
    destruct (PrivateKey.getPublicKey this w) as [[pub|e] w1] eqn:Hpub;
      [|discriminate Hrun].
    apply getPublicKey_ok_supported in Hpub. cbv zeta in Hrun.
    destruct (scrypt_encrypt _ _ _ _) as [encrypted|e]; [|discriminate Hrun].
    split_run Hrun Hres Hworld. apply Ok_inj in Hres. subst result.
    split; [reflexivity|]. split; [reflexivity | exact Hpub].
  - rewrite decrypt_run in Hrun. cbv zeta in Hrun.
    destruct (scrypt_decrypt _ _ _) as [decrypted|e]; [|discriminate Hrun].
    destruct (PrivateKey.getPublicKey _ _) as [[pub|e] w1] eqn:Hpub;
      [|discriminate Hrun].
    apply getPublicKey_ok_supported in Hpub. cbn [PrivateKey.algorithm] in Hpub.
    destruct (anchor_agrees _ _); [|discriminate Hrun].
    split_run Hrun Hres Hworld. apply Ok_inj in Hres. subst result.
    split; [reflexivity|]. split; [reflexivity | exact Hpub].
Qed.

Lemma encrypt_decrypt_keep_algorithm_witness :
  PrivateKey.algorithm Sample.ecdsaKey = PrivateKey.algorithm Sample.sealedKey
  /\ PrivateKey.parameters Sample.ecdsaKey = PrivateKey.parameters Sample.sealedKey
  /\ List.In (PrivateKey.algorithm Sample.sealedKey)
       [KeyType.ECDSA; KeyType.EDDSA; KeyType.SM2].
Proof.
  assert (Hrun :
    PrivateKey.decrypt Sample.sealedKey "123456" None Sample.world0 =
    (Ok Sample.ecdsaKey,
     logged (logged (logged Sample.world0
                       (ScryptDecrypt "0240:6h<h;g:;hi9hg<h" "123456"))
               (EcPublic "p256" "40b6b5a45bc3ba6b"))
       (CheckDecrypted "0240:6h<h;g:;hi9hg<h" "0240b6b5a45bc3ba6b")))
    by reflexivity.
  exact (encrypt_decrypt_keep_algorithm Sample.sealedKey "123456" None Sample.world0
           _ _ (or_intror Hrun)).
Defined.

(** X12.  When [decrypt] throws, it does so at one of three stages.  In
    scrypt's decrypt, with scrypt's error.  In the derivation of the
    candidate's public key, with what [getPublicKey] threw (the
    unsupported-algorithm error, or the library's error), after at most one
    derivation call and without reaching the anchor check.  Or in the anchor
    check, with the decryption error, and then the derived public key does
    disagree with the anchor. *)
Theorem decrypt_failure_stages {E : Env} (this : PrivateKey.t) (keyphrase : string)
    (params : option ScryptParams) (w w' : World) (e : Thrown) :
  PrivateKey.decrypt this keyphrase params w = (Throw e, w') ->
  (scrypt_decrypt (PrivateKey.key this) keyphrase params = Throw e
   /\ w' = logged w (ScryptDecrypt (PrivateKey.key this) keyphrase))
  \/ (exists decrypted,
        scrypt_decrypt (PrivateKey.key this) keyphrase params = Ok decrypted
        /\ PrivateKey.getPublicKey
             (PrivateKey.mk decrypted (PrivateKey.algorithm this)
                (PrivateKey.parameters this))
             (logged w (ScryptDecrypt (PrivateKey.key this) keyphrase)) = (Throw e, w')
        /\ (calls w' = (calls w ++ [ScryptDecrypt (PrivateKey.key this) keyphrase])%list
            \/ exists c,
                 calls w' =
                 (calls w ++ [ScryptDecrypt (PrivateKey.key this) keyphrase; c])%list
                 /\ forall a b, c <> CheckDecrypted a b))
  \/ (exists decrypted pub w2,
        scrypt_decrypt (PrivateKey.key this) keyphrase params = Ok decrypted
        /\ PrivateKey.getPublicKey
             (PrivateKey.mk decrypted (PrivateKey.algorithm this)
                (PrivateKey.parameters this))
             (logged w (ScryptDecrypt (PrivateKey.key this) keyphrase)) = (Ok pub, w2)
        /\ anchor_agrees (PrivateKey.key this) (PublicKey.key pub) = false
        /\ e = DecryptionError
        /\ w' = logged w2 (CheckDecrypted (PrivateKey.key this) (PublicKey.key pub))).
Proof.
  intros Hrun. rewrite decrypt_run in Hrun. cbv zeta in Hrun.
  destruct (scrypt_decrypt (PrivateKey.key this) keyphrase params) as [decrypted|e0].
  - right.
    destruct (PrivateKey.getPublicKey _ _) as [[pub|e1] w2] eqn:Hpub.
    + right. exists decrypted, pub, w2.
      destruct (anchor_agrees _ _) eqn:Hagree; [discriminate Hrun|].
      split_run Hrun Hres Hworld.
      split; [reflexivity|]. split; [exact Hpub|]. split; [reflexivity|].
      split; [now inversion Hres | now symmetry].
    + left. exists decrypted.
      split_run Hrun Hres Hworld. subst w2.
      assert (He : e1 = e) by (now inversion Hres). subst e1.
      split; [reflexivity|]. split; [exact Hpub|].
      rewrite getPublicKey_run in Hpub. cbn [PrivateKey.algorithm] in Hpub.
      apply (f_equal snd) in Hpub.
      destruct (PrivateKey.algorithm this); cbv zeta in Hpub; cbn [snd] in Hpub;
        subst w'.
      * right. eexists. rewrite logged_twice_calls. split; [reflexivity|].
        intros a b. discriminate.
      * right. eexists. rewrite logged_twice_calls. split; [reflexivity|].
        intros a b. discriminate.
      * right. eexists. rewrite logged_twice_calls. split; [reflexivity|].
        intros a b. discriminate.
      * left. reflexivity.
  - left. split_run Hrun Hres Hworld.
    split; [f_equal; now inversion Hres | now symmetry].
Qed.

Lemma decrypt_failure_stages_witness :
  exists pub w2,
    PrivateKey.getPublicKey
      (PrivateKey.mk "3/a5a4`34ab2a`5a" KeyType.ECDSA Sample.secp256r1)
      (logged Sample.world0 (ScryptDecrypt "0240:6h<h;g:;hi9hg<h" "1234567"))
      = (Ok pub, w2)
    /\ anchor_agrees "0240:6h<h;g:;hi9hg<h" (PublicKey.key pub) = false.
Proof.
  assert (Hrun :
    PrivateKey.decrypt Sample.sealedKey "1234567" None Sample.world0 =
    (Throw DecryptionError,
     logged (logged (logged Sample.world0
                       (ScryptDecrypt "0240:6h<h;g:;hi9hg<h" "1234567"))
               (EcPublic "p256" "3/a5a4`34ab2a`5a"))
       (CheckDecrypted "0240:6h<h;g:;hi9hg<h" "023/a5a4`34ab2a`5a")))
    by reflexivity.
  destruct (decrypt_failure_stages Sample.sealedKey "1234567" None Sample.world0
              _ _ Hrun)
    as [[Hthrow _] | [(d & Hdec & Hpub & _) | (d & pub & w2 & Hdec & Hpub & Hagree & _)]].
  - discriminate Hthrow.
  - apply Ok_inj in Hdec. subst d. discriminate Hpub.
  - apply Ok_inj in Hdec. subst d. exists pub, w2. split; [exact Hpub | exact Hagree].
Defined.

(** X13.  For an SM2 key neither the derived public key nor the signature
    depends on the key parameters: two SM2 keys with the same raw key and any
    two curve parameters derive the same public-key string and produce the
    same signature string for the same hash. *)
Theorem sm2_ignores_key_parameters {E : Env} (key hash : string)
    (parameters1 parameters2 : KeyParameters) (w : World) :
  let this1 := PrivateKey.mk key KeyType.SM2 parameters1 in
  let this2 := PrivateKey.mk key KeyType.SM2 parameters2 in
  (exists pub1 pub2 w',
      PrivateKey.getPublicKey this1 w = (Ok pub1, w')
      /\ PrivateKey.getPublicKey this2 w = (Ok pub2, w')
      /\ PublicKey.key pub1 = PublicKey.key pub2)
  /\ PrivateKey.computeSM2Signature this1 hash w
     = PrivateKey.computeSM2Signature this2 hash w.
Proof.
  cbv zeta. split.
  - rewrite !getPublicKey_run. cbn [PrivateKey.algorithm PrivateKey.key].
    eexists. eexists. eexists.
    split; [reflexivity|]. split; reflexivity.
  - rewrite !computeSM2Signature_run. reflexivity.
Qed.

(** ** Key generation *)

(** X14.  [PrivateKey.random] turns whatever 32 bytes the generator yields
    into the key, with no rejection or retry: the key is the hex of those
    bytes -- 64 lower-case hex digits -- the generator is advanced by that one
    draw, and the key type and parameters are the ones passed, the defaults
    being consulted only for an omitted argument. *)
Theorem random_key_shape (secureRandom : nat -> N -> Buffer.t * N)
    (default_keyType : Result KeyType.t) (default_parameters : Result KeyParameters)
    (keyType : option KeyType.t) (parameters : option KeyParameters) (generator : N)
    (kt : KeyType.t) (ps : KeyParameters) :
  List.length (fst (secureRandom 32 generator)) = 32 ->
  match keyType with Some k => Ok k | None => default_keyType end = Ok kt ->
  match parameters with Some p => Ok p | None => default_parameters end = Ok ps ->
  exists key,
    PrivateKey.random secureRandom default_keyType default_parameters
      keyType parameters generator
    = (Ok (PrivateKey.mk key kt ps), snd (secureRandom 32 generator))
    /\ key = Buffer.toString_hex (fst (secureRandom 32 generator))
    /\ String.length key = 64
    /\ List.Forall (fun c => List.In c (list_ascii_of_string "0123456789abcdef"))
         (list_ascii_of_string key).
Proof.
  intros Hlen Hkt Hps.
  exists (Buffer.toString_hex (fst (secureRandom 32 generator))).
  split.
  - unfold PrivateKey.random. rewrite Hkt, Hps. reflexivity.
  - split; [reflexivity|]. split.
    + rewrite toString_hex_length, Hlen. reflexivity.
    + apply toString_hex_lower.
Qed.

Lemma random_key_shape_witness :
  exists key,
    PrivateKey.random Sample.draw (Ok KeyType.ECDSA) (Throw (Error "no default"))
      None (Some Sample.secp256r1) 258%N
    = (Ok (PrivateKey.mk key KeyType.ECDSA Sample.secp256r1), 259%N)
    /\ key = Buffer.toString_hex (BN.be_bytes 32 258%N)
    /\ String.length key = 64
    /\ List.Forall (fun c => List.In c (list_ascii_of_string "0123456789abcdef"))
         (list_ascii_of_string key).
Proof.
  assert (Hlen : List.length (fst (Sample.draw 32 258%N)) = 32) by reflexivity.
  exact (random_key_shape Sample.draw (Ok KeyType.ECDSA) (Throw (Error "no default"))
           None (Some Sample.secp256r1) 258%N KeyType.ECDSA Sample.secp256r1
           Hlen eq_refl eq_refl).
Defined.

(** ** The REST client: query strings *)

Lemma JsMap_get_in (m : JsMap.t) (k v : string) :
  List.NoDup (JsMap.keys m) -> List.In (k, v) m -> JsMap.get m k = Some v.
Proof.
  unfold JsMap.keys.
  induction m as [|[k0 v0] m IH]; intros Hnodup Hin; [contradiction|].
  cbn [List.map fst] in Hnodup. inversion Hnodup as [|? ? Hnotin Hrest]; subst.
  cbn [JsMap.get]. destruct Hin as [Heq | Hin].
  - inversion Heq; subst. now rewrite String.eqb_refl.
  - destruct (String.eqb_spec k0 k) as [-> | Hneq].
    + exfalso. apply Hnotin. apply (List.in_map fst) in Hin. exact Hin.
    + now apply IH.
Qed.

Lemma encodeURIComponent_empty (v : string) :
  truthy v = false -> v = "".
Proof. destruct v; [reflexivity | discriminate]. Qed.

Lemma string_app_nil_r (s : string) : s ++ "" = s.
Proof. induction s as [|c s IH]; simpl; [reflexivity | now rewrite IH]. Qed.

Lemma concat_empty_cons (x : string) (items : list string) :
  String.concat "" (x :: items) = x ++ String.concat "" items.
Proof.
  destruct items as [|y items]; simpl; [now rewrite string_app_nil_r | reflexivity].
Qed.

(** Joining with a separator in front of every item, and between the items. *)
Lemma concat_leading_separator (sep : ascii) (items : list string) (x : string) :
  String.concat "" (String sep x :: List.map (fun s => String sep s) items)
  = String sep (String.concat (String sep "") (x :: items)).
Proof.
  revert x. induction items as [|y items IH]; intros x.
  - reflexivity.
  - cbn [List.map]. rewrite concat_empty_cons, IH.
    reflexivity.
Qed.

(** X15.  [concatParams] on a map with no entry is the empty string; on any
    other map it is [?] followed by the entries in insertion order, each as
    [key=value] with the value URI-encoded and the key written as it is,
    joined by [&].  An entry with an empty value gives [key=]. *)
Theorem concatParams_query (params : JsMap.t) :
  List.NoDup (JsMap.keys params) ->
  RestClient.concatParams params =
  match params with
  | [] => ""
  | _ :: _ =>
      "?" ++ String.concat "&"
               (List.map (fun kv => fst kv ++ "=" ++ Uri.encodeURIComponent (snd kv))
                  params)
  end.
Proof.
  intros Hnodup. unfold RestClient.concatParams.
  destruct params as [|entry params']; [reflexivity|].
  set (params := entry :: params') in *.
  change (Nat.eqb (JsMap.size params) 0) with false. cbv iota.
  set (step := fun (result key : string) => _).
  assert (Hfold : forall entries acc,
             (forall k v, List.In (k, v) entries -> JsMap.get params k = Some v) ->
             List.fold_left step (JsMap.keys entries) acc =
             acc ++ String.concat ""
                      (List.map (fun kv => String "&" (fst kv ++ "="
                                             ++ Uri.encodeURIComponent (snd kv)))
                         entries)).
  { induction entries as [|[k v] entries IH]; intros acc Hget.
    - simpl. now rewrite string_app_nil_r.
    - cbn [JsMap.keys List.map fst List.fold_left].
      fold (JsMap.keys entries).
      rewrite IH by (intros k' v' Hin; apply Hget; now right).
      unfold step. cbv beta zeta. rewrite (Hget k v (or_introl eq_refl)).
      assert (Hvalue : RestClient.show
                         (if truthy v then Some (Uri.encodeURIComponent v) else Some v)
                       = Uri.encodeURIComponent v).
      { destruct (truthy v) eqn:Htruthy; [reflexivity|].
        apply encodeURIComponent_empty in Htruthy. now subst v. }
      rewrite Hvalue, concat_empty_cons, string_app_assoc. reflexivity. }
  rewrite (Hfold params "") by (intros k v Hin; now apply JsMap_get_in).
  cbn [String.append].
  unfold params. cbn [List.map].
  rewrite <- (List.map_map
                (fun kv => fst kv ++ "=" ++ Uri.encodeURIComponent (snd kv))
                (fun s => String "&" s)).
  rewrite (concat_leading_separator "&"
             (List.map (fun kv => fst kv ++ "=" ++ Uri.encodeURIComponent (snd kv))
                params')).
  reflexivity.
Qed.

Lemma concatParams_query_witness :
  List.NoDup (JsMap.keys [("a b", "x y"); ("raw", "")])
  /\ RestClient.concatParams [("a b", "x y"); ("raw", "")] = "?a b=x%20y&raw=".
Proof.
  assert (Hnodup : List.NoDup (JsMap.keys [("a b", "x y"); ("raw", "")])).
  { simpl. repeat constructor; simpl; intuition discriminate. }
  split; [exact Hnodup|].
  exact (concatParams_query [("a b", "x y"); ("raw", "")] Hnodup).
Defined.

Lemma upper_hex_digit_not_separator (n : N) :
  ~ List.In (Uri.upper_hex_digit n) (list_ascii_of_string "&=?#/ ").
Proof.
  destruct n as [|p]; [simpl; intuition discriminate|].
  do 4 (try destruct p as [p|p|]); simpl; intuition discriminate.
Qed.

(** No character of an encoded value is a separator of a URL. *)
Lemma encodeURIComponent_no_separator (s : string) :
  List.Forall (fun c => ~ List.In c (list_ascii_of_string "&=?#/ "))
    (list_ascii_of_string (Uri.encodeURIComponent s)).
Proof.
  induction s as [|c s IH]; [constructor|].
  cbn [Uri.encodeURIComponent].
  destruct (Uri.unreserved c) eqn:Hc; cbn [list_ascii_of_string].
  - constructor; [|exact IH].
    simpl. intros [H | [H | [H | [H | [H | [H | []]]]]]]; subst c; discriminate Hc.
  - constructor; [simpl; intuition discriminate|].
    constructor; [apply upper_hex_digit_not_separator|].
    constructor; [apply upper_hex_digit_not_separator | exact IH].
Qed.

(** X16.  In [sendRawTransaction] an empty user id is treated as no user id;
    a non-empty one is sent as the [userid] parameter, encoded so that it
    contains none of the characters [& = ? # /] or a space: a user id cannot
    add a parameter to the query or override [preExec=1]. *)
Theorem sendRawTransaction_userId (Url_send_transaction : string)
    (this : RestClient.t) (hexData : string) (preExec : option bool) :
  RestClient.sendRawTransaction Url_send_transaction this hexData preExec (Some "")
  = RestClient.sendRawTransaction Url_send_transaction this hexData preExec None
  /\ forall userId,
       userId <> "" ->
       exists encoded,
         RestClient.post_url
           (RestClient.sendRawTransaction Url_send_transaction this hexData preExec
              (Some userId))
         = (RestClient.url this ++ Url_send_transaction)
             ++ "?userid=" ++ encoded ++ "&preExec=1"
         /\ encoded = Uri.encodeURIComponent userId
         /\ List.Forall (fun c => ~ List.In c (list_ascii_of_string "&=?#/ "))
              (list_ascii_of_string encoded).
Proof.
  split; [reflexivity|].
  intros userId Hne. exists (Uri.encodeURIComponent userId).
  assert (Htruthy : truthy userId = true) by (destruct userId; [contradiction | reflexivity]).
  split; [|split; [reflexivity | apply encodeURIComponent_no_separator]].
  unfold RestClient.sendRawTransaction. cbv zeta. rewrite Htruthy.
  cbn [RestClient.post_url].
  now rewrite (concatParams_userid_preExec userId Htruthy).
Qed.

Lemma sendRawTransaction_userId_witness :
  "a&preExec=0" <> ""
  /\ RestClient.post_url
       (RestClient.sendRawTransaction "/api/v1/transaction"
          (RestClient.mk "http://localhost:20334" "v1.0.0" "sendrawtransaction")
          "00d1" (Some false) (Some "a&preExec=0"))
     = "http://localhost:20334/api/v1/transaction?userid=a%26preExec%3D0&preExec=1".
Proof.
  assert (Hne : "a&preExec=0" <> "") by discriminate.
  split; [exact Hne|].
  destruct (proj2 (sendRawTransaction_userId "/api/v1/transaction"
                     (RestClient.mk "http://localhost:20334" "v1.0.0"
                        "sendrawtransaction")
                     "00d1" (Some false))
              "a&preExec=0" Hne) as (encoded & Hurl & Hencoded & _).
  rewrite Hurl, Hencoded. reflexivity.
Defined.

(** Each raw getter requests the URL of its JSON twin followed by [?raw=1]:
    [getRawTransaction] and [getRawTransactionJson], [getBlock] and
    [getBlockJson] (by height and by hash alike), [getContract] and
    [getContractJson]; the path argument is appended as it is, without
    encoding, and [getContract] prints the URL it requests. *)
Lemma raw_getters_append_raw (Url_get_transaction Url_get_block_by_height
    Url_get_block_by_hash Url_get_contract_state : string)
    (Number_toString : Z -> string) (this : RestClient.t) :
  (forall txHash,
      RestClient.get_url (RestClient.getRawTransaction Url_get_transaction this txHash)
      = RestClient.get_url
          (RestClient.getRawTransactionJson Url_get_transaction this txHash)
        ++ "?raw=1")
  /\ (forall value,
        RestClient.get_url
          (RestClient.getBlock Url_get_block_by_height Url_get_block_by_hash
             Number_toString this value)
        = RestClient.get_url
            (RestClient.getBlockJson Url_get_block_by_height Url_get_block_by_hash
               Number_toString this value)
          ++ "?raw=1")
  /\ (forall codeHash,
        RestClient.get_url
          (snd (RestClient.getContract Url_get_contract_state this codeHash))
        = RestClient.get_url
            (RestClient.getContractJson Url_get_contract_state this codeHash)
          ++ "?raw=1"
        /\ fst (RestClient.getContract Url_get_contract_state this codeHash)
           = ["url: " ++ RestClient.get_url
                (snd (RestClient.getContract Url_get_contract_state this codeHash))]).
Proof.
  repeat split.
Qed.
